(** * AI-Chatbot: the pizza order machine and the book retrieval pipeline

    A shallow embedding of [src/pizza.py] (class [PizzeriaBot]) and
    [src/books.py] (class [BookRecommenderChatbot]), with the properties
    the specification states about them.

    Conventions of the embedding.
    - A Python [str] is a [string] of 8-bit characters; [lower] and [strip]
      are the ASCII parts of [str.lower] and [str.strip].
    - A Python [dict] that is only looked up is a [gmap]; one that is also
      iterated in insertion order is an association list.
    - A method that mutates [self] takes the state and returns the new one.
    - The text of a reply is presentation: a reply is a constructor per
      [return] statement, carrying the values the f-string interpolates.
    - The Gemini model, TF-IDF/cosine similarity, [numpy.argsort] and
      pandas' [str.contains] are external: they are Section variables. *)

From Stdlib Require Import ZArith QArith List String Ascii Bool Lia.
From Stdlib Require Import Permutation Sorted.
From stdpp Require Import base option list sorting strings gmap.

Local Open Scope string_scope.

(** ** Python string operations *)

Module Text.

(** [c.isupper()] for an ASCII character. *)
Definition is_upper (c : ascii) : bool :=
  let n := nat_of_ascii c in (65 <=? n)%nat && (n <=? 90)%nat.

Definition lower_char (c : ascii) : ascii :=
  if is_upper c then ascii_of_nat (nat_of_ascii c + 32) else c.

(** [s.lower()] *)
Fixpoint lower (s : string) : string :=
  match s with
  | EmptyString => EmptyString
  | String c s' => String (lower_char c) (lower s')
  end.

(** [c.isspace()]: tab, newline, vertical tab, form feed, carriage return,
    the four separators 0x1c..0x1f and the space. *)
Definition is_space (c : ascii) : bool :=
  let n := nat_of_ascii c in
  ((9 <=? n)%nat && (n <=? 13)%nat) || ((28 <=? n)%nat && (n <=? 32)%nat).

(** [s.lstrip()] *)
Fixpoint lstrip (s : string) : string :=
  match s with
  | EmptyString => EmptyString
  | String c s' => if is_space c then lstrip s' else s
  end.

(** [s.rstrip()] *)
Fixpoint rstrip (s : string) : string :=
  match s with
  | EmptyString => EmptyString
  | String c s' =>
      match rstrip s' with
      | EmptyString => if is_space c then EmptyString else String c EmptyString
      | r => String c r
      end
  end.

(** [s.strip()] *)
Definition strip (s : string) : string := rstrip (lstrip s).

(** [needle in hay] on strings. *)
Fixpoint contains (needle hay : string) : bool :=
  String.prefix needle hay ||
  match hay with
  | EmptyString => false
  | String _ hay' => contains needle hay'
  end.

(** [part] is a run of consecutive characters of [whole]. *)
Definition occurs_in (part whole : string) : Prop :=
  exists pre post, whole = pre ++ part ++ post.

(** The first character, if there is one, is not white space. *)
Definition starts_clean (s : string) : Prop :=
  match s with
  | EmptyString => True
  | String c _ => is_space c = false
  end.

(** Truthiness of a string: [bool(s)]. *)
Definition truthy (s : string) : bool :=
  match s with EmptyString => false | _ => true end.

End Text.

Import Text.

(** ** The pizza assistant: [src/pizza.py] *)

Module Pizza.

(** [dict[k]] / [k in dict] on a dictionary kept in insertion order. *)
Fixpoint dict_get {V : Type} (d : list (string * V)) (k : string) : option V :=
  match d with
  | [] => None
  | (k', v) :: d' => if String.eqb k' k then Some v else dict_get d' k
  end.

Definition keys {V : Type} (d : list (string * V)) : list string := map fst d.
Definition values {V : Type} (d : list (string * V)) : list V := map snd d.

(** [self.available_ingredients] *)
Definition available_ingredients : list (string * list string) :=
  [ ("meats", ["pepperoni"; "sausage"; "ham"; "bacon"; "chicken"; "beef"; "salami"]);
    ("vegetables", ["mushrooms"; "onions"; "bell peppers"; "tomatoes"; "olives";
                    "spinach"; "arugula"; "basil"; "garlic"]);
    ("cheeses", ["mozzarella"; "cheddar"; "parmesan"; "feta"; "goat cheese"]);
    ("sauces", ["tomato sauce"; "white sauce"; "pesto"; "bbq sauce"; "ranch"]) ].

Record size_info := SizeInfo { price : Q; description : string }.

(** [self.pizza_sizes]; a price is the decimal the source writes. *)
Definition pizza_sizes : list (string * size_info) :=
  [ ("small", SizeInfo (1299 # 100) "10 inch");
    ("medium", SizeInfo (1599 # 100) "12 inch");
    ("large", SizeInfo (1899 # 100) "14 inch");
    ("extra large", SizeInfo (2199 # 100) "16 inch") ].

(** [self.current_order] *)
Record order := Order {
  size : option string;
  ingredients : list string;
  total_price : Q;
  confirmed : bool
}.

Definition initial_order : order := Order None [] 0 false.

Definition set_size (s : string) (o : order) : order :=
  Order (Some s) (ingredients o) (total_price o) (confirmed o).
Definition set_ingredients (l : list string) (o : order) : order :=
  Order (size o) l (total_price o) (confirmed o).
Definition set_confirmed (b : bool) (o : order) : order :=
  Order (size o) (ingredients o) (total_price o) b.

(** What a method hands back: one constructor per [return] statement. *)
Inductive reply :=
  (* "Perfect! I've set your pizza size to {size} ({description}) for ${price:.2f}."
     then " I've also added {orig} to your pizza." per added ingredient,
     then " Would you like to add any other toppings?" *)
  | PizzaCreated (sz descr : string) (p : Q) (added : list string)
  (* "I'm sorry, we don't have that size. Available sizes are: {available_sizes}" *)
  | UnknownSize (available_sizes : list string)
  (* "Great! I've added {orig_ingredient} to your pizza. ..." *)
  | IngredientAdded (orig_ingredient : string)
  (* "You already have {normalized_ingredient} on your pizza. ..." *)
  | AlreadyPresent (normalized_ingredient : string)
  (* "I'm sorry, we don't have {ingredient} available. ..." *)
  | NotAvailable (ingredient : string)
  (* "Perfect! I've set your pizza size to {size} ({description}) for ${price:.2f}. What toppings would you like?" *)
  | SizeSet (sz descr : string) (p : Q)
  (* "I've removed {removed} from your pizza. ..." *)
  | IngredientRemoved (removed : string)
  (* "I don't see {ingredient} on your current pizza. ..." *)
  | NotOnPizza (ingredient : string)
  (* "You haven't selected a pizza size yet. ..." *)
  | NoSizeSelected
  (* "Here's your current order: Size ... Toppings ... Total: ${price:.2f} ..." *)
  | OrderSummary (sz descr : string) (p : Q) (toppings : list string) (total : Q)
  (* "Please select a pizza size first before confirming your order." *)
  | SelectSizeFirst
  (* "Would you like to add some toppings to your pizza before confirming? ..." *)
  | AddToppingsFirst
  (* "Order Confirmed! Your {size} pizza with {ingredients} ... Total: ${price:.2f} ..." *)
  | OrderConfirmed (sz : string) (toppings : list string) (total : Q)
  (* "Here are all our available ingredients: ..." *)
  | IngredientList (catalog : list (string * list string))
  (* "I'm sorry, I couldn't understand that request. Could you please rephrase?" *)
  | NotUnderstood
  (* the text part of the model's answer *)
  | ModelText (text : string)
  (* "I'd be happy to help you with your pizza order! What would you like?" *)
  | HappyToHelp
  (* "I'm sorry, I encountered an error: {str(e)}. Could you please try again?" *)
  | ErrorReply (e : string)
  (* a function body that ends without [return] *)
  | PyNone.

Inductive outcome :=
  | Return (r : reply)
  | Raise (e : string).

(** [typo_map] of [normalize_ingredient], in the order it is written. *)
Definition typo_table : list (string * string) :=
  [ ("peperoni", "pepperoni");
    ("pepperoni", "pepperoni");
    ("mozarela", "mozzarella");
    ("mozzarela", "mozzarella");
    ("mozzarella", "mozzarella");
    ("mushroom", "mushrooms");
    ("mushroms", "mushrooms");
    ("mashrooms", "mushrooms");
    ("onion", "onions");
    ("tomatoe", "tomatoes");
    ("olive", "olives");
    ("bellpepper", "bell peppers");
    ("bell pepper", "bell peppers");
    ("green pepper", "bell peppers");
    ("cheese", "mozzarella") ].

Definition typo_map : gmap string string := list_to_map typo_table.

Definition normalize_ingredient (ingredient : string) : string :=
  let ingredient := strip (lower ingredient) in
  default ingredient (typo_map !! ingredient).

(** [all_ingredients]: every catalog name, lower-cased, category by category. *)
Definition all_ingredients : list string :=
  concat (map (fun category => map lower category) (values available_ingredients)).

(** The inner [for orig_ingredient in category] loop up to its first hit. *)
Definition first_in_category (normalized : string) (category : list string)
  : option string :=
  List.find (fun orig_ingredient => String.eqb (lower orig_ingredient) normalized)
            category.

(** [create_pizza_with_size]: [break] leaves the inner loop only, so every
    category is scanned and contributes its first hit. *)
Definition hits_per_category (normalized : string) : list string :=
  omap (first_in_category normalized) (values available_ingredients).

(** [add_ingredient]: [return] leaves both loops at the first hit. *)
Fixpoint first_hit (normalized : string) (categories : list (list string))
  : option string :=
  match categories with
  | [] => None
  | category :: rest =>
      match first_in_category normalized category with
      | Some orig_ingredient => Some orig_ingredient
      | None => first_hit normalized rest
      end
  end.

Definition create_pizza_with_size (sz : string) (main_ingredient : option string)
    (o : order) : outcome * order :=
  let sz := strip (lower sz) in
  match dict_get pizza_sizes sz with
  | Some info =>
      let o1 := set_size sz o in
      let added :=
        match main_ingredient with
        | Some m =>
            if truthy m then
              let normalized_ingredient := normalize_ingredient m in
              if bool_decide (normalized_ingredient ∈ all_ingredients)
              then hits_per_category normalized_ingredient
              else []
            else []
        | None => []
        end in
      (Return (PizzaCreated sz (description info) (price info) added),
       set_ingredients (ingredients o1 ++ added) o1)
  | None => (Return (UnknownSize (keys pizza_sizes)), o)
  end.

Definition add_ingredient (ingredient : string) (o : order) : outcome * order :=
  let normalized_ingredient := normalize_ingredient ingredient in
  if bool_decide (normalized_ingredient ∈ all_ingredients) then
    if bool_decide (normalized_ingredient ∉ map lower (ingredients o)) then
      match first_hit normalized_ingredient (values available_ingredients) with
      | Some orig_ingredient =>
          (Return (IngredientAdded orig_ingredient),
           set_ingredients (ingredients o ++ [orig_ingredient]) o)
      | None => (Return PyNone, o)
      end
    else (Return (AlreadyPresent normalized_ingredient), o)
  else (Return (NotAvailable ingredient), o).

Definition set_pizza_size (sz : string) (o : order) : outcome * order :=
  let sz := strip (lower sz) in
  match dict_get pizza_sizes sz with
  | Some info => (Return (SizeSet sz (description info) (price info)), set_size sz o)
  | None => (Return (UnknownSize (keys pizza_sizes)), o)
  end.

(** [enumerate] up to the first [ing.lower() == ingredient], then [pop(i)]. *)
Definition remove_ingredient (ingredient : string) (o : order) : outcome * order :=
  let ingredient := strip (lower ingredient) in
  match list_find (fun ing => lower ing = ingredient) (ingredients o) with
  | Some (i, removed) =>
      (Return (IngredientRemoved removed), set_ingredients (delete i (ingredients o)) o)
  | None => (Return (NotOnPizza ingredient), o)
  end.

(** [not self.current_order["size"]] is true of [None] and of the empty string. *)
Definition size_chosen (o : order) : bool :=
  match size o with
  | Some s => truthy s
  | None => false
  end.

(** [str.title()] of a size name: first letter of each word upper-cased. *)
Definition upper_char (c : ascii) : ascii :=
  let n := nat_of_ascii c in
  if (97 <=? n)%nat && (n <=? 122)%nat then ascii_of_nat (n - 32) else c.
Definition is_alpha (c : ascii) : bool :=
  let n := nat_of_ascii c in
  ((65 <=? n)%nat && (n <=? 90)%nat) || ((97 <=? n)%nat && (n <=? 122)%nat).
Fixpoint title_from (start : bool) (s : string) : string :=
  match s with
  | EmptyString => EmptyString
  | String c s' =>
      String (if start then upper_char c else lower_char c) (title_from (negb (is_alpha c)) s')
  end.
Definition title (s : string) : string := title_from true s.

Definition show_current_order (o : order) : outcome * order :=
  match size o with
  | Some s =>
      if truthy s then
        match dict_get pizza_sizes s with
        | Some info =>
            (Return (OrderSummary (title s) (description info) (price info)
                                  (ingredients o) (price info)), o)
        | None => (Raise s, o)   (* KeyError *)
        end
      else (Return NoSizeSelected, o)
  | None => (Return NoSizeSelected, o)
  end.

Definition confirm_order (o : order) : outcome * order :=
  match size o with
  | Some s =>
      if truthy s then
        match ingredients o with
        | [] => (Return AddToppingsFirst, o)
        | _ :: _ =>
            let o1 := set_confirmed true o in
            match dict_get pizza_sizes s with
            | Some info => (Return (OrderConfirmed s (ingredients o1) (price info)), o1)
            | None => (Raise s, o1)   (* KeyError, after the flag is set *)
            end
        end
      else (Return SelectSizeFirst, o)
  | None => (Return SelectSizeFirst, o)
  end.

Definition show_available_ingredients (o : order) : outcome * order :=
  (Return (IngredientList available_ingredients), o).

(** [parameters] is the argument mapping of the model's function call. *)
Definition execute_function (function_name : string) (parameters : gmap string string)
    (o : order) : outcome * order :=
  if String.eqb function_name "create_pizza_with_size" then
    create_pizza_with_size (default "" (parameters !! "size"))
                           (parameters !! "main_ingredient") o
  else if String.eqb function_name "add_ingredient" then
    add_ingredient (default "" (parameters !! "ingredient")) o
  else if String.eqb function_name "set_pizza_size" then
    set_pizza_size (default "" (parameters !! "size")) o
  else if String.eqb function_name "remove_ingredient" then
    remove_ingredient (default "" (parameters !! "ingredient")) o
  else if String.eqb function_name "show_current_order" then
    show_current_order o
  else if String.eqb function_name "confirm_order" then
    confirm_order o
  else if String.eqb function_name "show_available_ingredients" then
    show_available_ingredients o
  else (Return NotUnderstood, o).

(** *** The conversation surface

    The Gemini model is external.  What [chat] reads of its answer is the
    list of parts of the first candidate; a call may also raise. *)

Inductive part :=
  | FunctionCall (name : string) (args : gmap string string)
  | TextPart (text : string)
  | OtherPart.

Inductive model_response :=
  | Candidates (cs : list (list part))
  | ModelError (e : string).

(** What the prompt interpolates besides constants: the order and the message. *)
Record prompt := Prompt { order_status : order; customer : string }.

Definition completion_phrases : list string :=
  ["that all"; "thats all"; "that's all"; "done"; "finish"; "complete"].

(** [except Exception as e: return f"I'm sorry, I encountered an error: ..."] *)
Definition catch (r : outcome * order) : reply * order :=
  match r with
  | (Return x, o) => (x, o)
  | (Raise e, o) => (ErrorReply e, o)
  end.

(** The [for part in ...parts] loop; [None] when it ends without returning. *)
Fixpoint dispatch_parts (parts : list part) (o : order) : option (outcome * order) :=
  match parts with
  | [] => None
  | FunctionCall function_name parameters :: rest =>
      if String.eqb function_name "set_pizza_size" && bool_decide (ingredients o = [])
      then Some (execute_function function_name parameters o)
      else Some (execute_function function_name parameters o)
  | TextPart text :: rest =>
      if truthy text then Some (Return (ModelText text), o) else dispatch_parts rest o
  | OtherPart :: rest => dispatch_parts rest o
  end.

Section Chat.

Variable generate_content : prompt -> model_response.

(** [chat] returns the reply and the order, and, for the properties about
    the model, the prompts it sent. *)
Definition chat (user_message : string) (o : order) : reply * order * list prompt :=
  let user_lower := strip (lower user_message) in
  if existsb (fun phrase => contains phrase user_lower) completion_phrases then
    if size_chosen o && negb (bool_decide (ingredients o = []))
    then (catch (confirm_order o), [])
    else (catch (show_current_order o), [])
  else
    let sent := Prompt o user_message in
    match generate_content sent with
    | ModelError e => (ErrorReply e, o, [sent])
    | Candidates [] => (HappyToHelp, o, [sent])
    | Candidates (parts :: _) =>
        match dispatch_parts parts o with
        | Some r => (catch r, [sent])
        | None => (HappyToHelp, o, [sent])
        end
    end.

End Chat.

(** The orders a session can hold: from [initial_order], by dispatched
    functions and chat turns, whatever the model answers. *)
Inductive reachable : order -> Prop :=
  | reach_init : reachable initial_order
  | reach_exec o function_name parameters :
      reachable o -> reachable (execute_function function_name parameters o).2
  | reach_chat o generate_content user_message :
      reachable o -> reachable (chat generate_content user_message o).1.2.

(** The size is unset or one of the keys of [pizza_sizes]. *)
Definition size_valid (o : order) : Prop :=
  match size o with
  | Some s => is_Some (dict_get pizza_sizes s)
  | None => True
  end.

(** Every ingredient of the order is a catalog name, in the catalog's spelling. *)
Definition catalog_names : list string := concat (values available_ingredients).

Definition from_catalog (o : order) : Prop :=
  Forall (fun ing => ing ∈ catalog_names) (ingredients o).

(** The order with another value in its [total_price] field. *)
Definition set_total_price (q : Q) (o : order) : order :=
  Order (size o) (ingredients o) q (confirmed o).

(** The price [p] is the one [pizza_sizes] gives for the size [key]. *)
Definition table_price (key : string) (p : Q) : Prop :=
  exists info, dict_get pizza_sizes key = Some info /\ p = price info.

(** Every price a reply shows is the table's price of the size it is about;
    [o] is the order the reply was computed on. *)
Definition prices_from_table (o : order) (r : reply) : Prop :=
  match r with
  | PizzaCreated sz _ p _ | SizeSet sz _ p => table_price sz p
  | OrderSummary _ _ p _ total =>
      exists key, size o = Some key /\ table_price key p /\ total = p
  | OrderConfirmed sz _ total => size o = Some sz /\ table_price sz total
  | _ => True
  end.

(** [confirm_order] answers with the confirmation. *)
Definition confirms (o : order) : Prop :=
  exists sz toppings total,
    (confirm_order o).1 = Return (OrderConfirmed sz toppings total).

(** The ways one dispatched function can change the order. *)
Inductive change (o : order) : order -> Prop :=
  | ch_same : change o o
  | ch_size key :
      is_Some (dict_get pizza_sizes key) -> change o (set_size key o)
  | ch_create key added :
      is_Some (dict_get pizza_sizes key) ->
      Forall (fun ing => ing ∈ catalog_names) added ->
      change o (Order (Some key) (ingredients o ++ added) (total_price o) (confirmed o))
  | ch_add orig :
      orig ∈ catalog_names -> orig ∉ ingredients o ->
      change o (set_ingredients (ingredients o ++ [orig]) o)
  | ch_remove i :
      change o (set_ingredients (delete i (ingredients o)) o)
  | ch_confirm :
      size_chosen o = true -> ingredients o <> [] ->
      change o (set_confirmed true o).

End Pizza.

(** ** The book assistant: [src/books.py] *)

Module Books.

(** *** The catalog loader

    A data frame after [pd.read_csv]: its column names and its rows; a row
    maps a column to its cell, and a null (NaN) cell is an absent key.
    Cells are strings. *)
Record dataframe := DataFrame {
  columns : list string;
  rows : list (gmap string string)
}.

(** What [pd.read_csv] hands to the loader: a frame, or an exception. *)
Inductive csv_read :=
  | Frame (df : dataframe)
  | ReadError (e : string).

(** [str(e)] of the exception the loader wraps in
    ["Error loading books data: {str(e)}"]. *)
Inductive load_error :=
  | MissingRequiredColumns (missing_columns : list string)
  | ReadFailed (e : string).

Inductive loaded :=
  | Loaded (df : dataframe)
  | LoadFailed (cause : load_error).

Definition required_columns : list string := ["title"; "author"; "description"].

(** [df.dropna(subset=required_columns)] *)
Definition dropna (subset : list string) (rs : list (gmap string string))
  : list (gmap string string) :=
  List.filter (fun r => forallb (fun col => bool_decide (is_Some (r !! col))) subset) rs.

(** [df['title'] + ' ' + df['author'] + ' ' + df['description']]: null if a
    part is null. *)
Definition combined_text (r : gmap string string) : option string :=
  t ← r !! "title";
  a ← r !! "author";
  d ← r !! "description";
  Some (t ++ " " ++ a ++ " " ++ d).

(** Column assignment [df[col] = series], one row of it. *)
Definition assign (col : string) (cell : option string) (r : gmap string string)
  : gmap string string :=
  partial_alter (fun _ => cell) col r.

Definition clean_row (r : gmap string string) : gmap string string :=
  let r1 := assign "combined_text" (combined_text r) r in
  let r2 := assign "title" (strip <$> r1 !! "title") r1 in
  assign "author" (strip <$> r2 !! "author") r2.

Definition add_column (col : string) (cols : list string) : list string :=
  if bool_decide (col ∈ cols) then cols else cols ++ [col].

Definition load_books_data (csv : csv_read) : loaded :=
  match csv with
  | ReadError e => LoadFailed (ReadFailed e)
  | Frame df =>
      let missing_columns :=
        List.filter (fun col => bool_decide (col ∉ columns df)) required_columns in
      match missing_columns with
      | _ :: _ => LoadFailed (MissingRequiredColumns missing_columns)
      | [] =>
          Loaded (DataFrame (add_column "combined_text" (columns df))
                            (map clean_row (dropna required_columns (rows df))))
      end
  end.

(** *** The ranker *)

(** The float [0.01], exactly: 5764607523034235 / 2^59.  A similarity is a
    finite float, embedded as the rational it denotes. *)
Definition threshold : Q := 5764607523034235 # 576460752303423488.

(** [s > 0.01] *)
Definition above_threshold (s : Q) : bool := negb (Qle_bool s threshold).

(** An entry of the list a search returns. *)
Inductive annotation :=
  | similarity_score (s : Q)
  | match_type (m : string).

Record result := Result {
  title : option string;
  author : option string;
  description : option string;
  note : annotation
}.

(** Python's [l[:k]]: a negative [k] counts from the end. *)
Definition slice_to {A : Type} (k : Z) (l : list A) : list A :=
  if (0 <=? k)%Z then take (Z.to_nat k) l
  else take (length l - Z.to_nat (- k)) l.

Definition score_of (r : result) : Q :=
  match note r with
  | similarity_score s => s
  | match_type _ => 0%Q
  end.

(** [similarities[i]]; an index [np.argsort] returns is always in range. *)
Definition key (similarities : list Q) (i : nat) : Q := nth i similarities 0%Q.

(** [np.argsort] on an array short enough for its insertion sort: ascending,
    equal values in index order. *)
Fixpoint insert_index (similarities : list Q) (i : nat) (sorted : list nat)
  : list nat :=
  match sorted with
  | [] => [i]
  | j :: rest =>
      if Qle_bool (key similarities i) (key similarities j)
      then i :: sorted
      else j :: insert_index similarities i rest
  end.

Definition numpy_argsort (similarities : list Q) : list nat :=
  foldr (insert_index similarities) [] (seq 0 (length similarities)).

(** What [np.argsort] promises of its result [p] on [similarities]: a
    rearrangement of the indices, ascending by value. *)
Fixpoint ascending (similarities : list Q) (p : list nat) : bool :=
  match p with
  | i :: ((j :: _) as rest) =>
      Qle_bool (key similarities i) (key similarities j) && ascending similarities rest
  | _ => true
  end.

Definition is_argsort (similarities : list Q) (p : list nat) : bool :=
  (length p =? length similarities)%nat
  && forallb (fun i => bool_decide (i ∈ p)) (seq 0 (length similarities))
  && ascending similarities p.

(** The order a stable ascending sort puts two indices in: by value, and by
    index among equal values. *)
Definition stable_before (similarities : list Q) (i j : nat) : Prop :=
  (key similarities i < key similarities j)%Q
  \/ ((key similarities i <= key similarities j)%Q /\ i < j).

Section Ranker.

(** The fitted vectorizer and [cosine_similarity] against [book_embeddings]:
    the score of a query against the embedding of the [i]-th record. *)
Variable similarity : string -> nat -> Q.
Variable argsort : list Q -> list nat.

Definition similarities_of (books_df : list (gmap string string)) (query : string)
  : list Q :=
  map (similarity query) (seq 0 (length books_df)).

(** [np.argsort(similarities)[::-1][:num_recommendations]] *)
Definition similar_indices (similarities : list Q) (num_recommendations : Z)
  : list nat :=
  slice_to num_recommendations (rev (argsort similarities)).

(** The indices the loop keeps. *)
Definition kept_indices (similarities : list Q) (num_recommendations : Z) : list nat :=
  List.filter (fun idx => above_threshold (key similarities idx))
              (similar_indices similarities num_recommendations).

Definition recommendation (books_df : list (gmap string string))
    (similarities : list Q) (idx : nat) : result :=
  let book := default ∅ (books_df !! idx) in
  Result (book !! "title") (book !! "author") (book !! "description")
         (similarity_score (key similarities idx)).

Definition find_similar_books (books_df : list (gmap string string))
    (query : string) (num_recommendations : Z) : list result :=
  let similarities := similarities_of books_df query in
  map (recommendation books_df similarities)
      (kept_indices similarities num_recommendations).

End Ranker.

(** *** The intent router

    The ten patterns use three constructs of Python's [re]: a literal
    character, an optional character [c?] and the group [(.+)].  [compile]
    reads a pattern written as in the source. *)

Inductive token :=
  | Lit (c : ascii)
  | Opt (c : ascii)
  | AnyGroup.

Fixpoint compile (pattern : string) : list token :=
  match pattern with
  | EmptyString => []
  | String "(" (String "." (String "+" (String ")" rest))) => AnyGroup :: compile rest
  | String c (String "?" rest) => Opt c :: compile rest
  | String c rest => Lit c :: compile rest
  end.

(** [.] matches any character but the newline. *)
Definition newline : ascii := ascii_of_nat 10.

(** A backtracking match of the tokens at the start of [s]: the captured
    groups in order, or [None].  [c?] tries the character first; [(.+)] takes
    as many characters as it can and gives back one at a time. *)
Fixpoint match_here (p : list token) (s : string) : option (list string) :=
  match p with
  | [] => Some []
  | Lit c :: p' =>
      match s with
      | String d s' => if Ascii.eqb c d then match_here p' s' else None
      | EmptyString => None
      end
  | Opt c :: p' =>
      let taken :=
        match s with
        | String d s' => if Ascii.eqb c d then match_here p' s' else None
        | EmptyString => None
        end in
      match taken with
      | Some groups => Some groups
      | None => match_here p' s
      end
  | AnyGroup :: p' =>
      let fix greedy (s : string) : option (string * list string) :=
        match s with
        | EmptyString => None
        | String d s' =>
            if Ascii.eqb d newline then None
            else
              match greedy s' with
              | Some (g, groups) => Some (String d g, groups)
              | None =>
                  match match_here p' s' with
                  | Some groups => Some (String d EmptyString, groups)
                  | None => None
                  end
              end
        end in
      match greedy s with
      | Some (g, groups) => Some (g :: groups)
      | None => None
      end
  end.

(** The scan of [re.search]: the leftmost start at which the tokens match. *)
Fixpoint search_tokens (p : list token) (s : string) : option (list string) :=
  match match_here p s with
  | Some groups => Some groups
  | None =>
      match s with
      | EmptyString => None
      | String _ s' => search_tokens p s'
      end
  end.

(** [re.search(pattern, s)], the match as its list of groups. *)
Definition re_search (pattern s : string) : option (list string) :=
  search_tokens (compile pattern) s.

(** [match.group(1)] *)
Definition group1 (groups : list string) : string := default "" (head groups).

Inductive intent_kind := author_search | title_search | similarity_search.

Record intent_data := Intent { intent : intent_kind; query : string }.

Definition author_patterns : list string :=
  ["books? by (.+)"; "(.+)'s books?"; "author (.+)"; "written by (.+)";
   "from (.+) author"].

Definition title_patterns : list string :=
  ["book called (.+)"; "title (.+)"; "book titled (.+)"; "looking for (.+)";
   "find (.+)"].

(** A [for pattern in patterns] loop that returns at the first match. *)
Fixpoint first_match (patterns : list string) (s : string) : option (list string) :=
  match patterns with
  | [] => None
  | pattern :: rest =>
      match re_search pattern s with
      | Some m => Some m
      | None => first_match rest s
      end
  end.

Definition detect_intent (user_input : string) : intent_data :=
  let user_input_lower := lower user_input in
  match first_match author_patterns user_input_lower with
  | Some m => Intent author_search (strip (group1 m))
  | None =>
      match first_match title_patterns user_input_lower with
      | Some m => Intent title_search (strip (group1 m))
      | None => Intent similarity_search user_input
      end
  end.

(** The router as the specification words it: one list of patterns in
    priority order, author patterns before title patterns; the first that
    matches the lower-cased input gives the kind and its captured group,
    passed through [post], the query; with no match, a similarity search for
    the whole input. *)
Definition prioritized_patterns : list (string * intent_kind) :=
  map (fun pattern => (pattern, author_search)) author_patterns
  ++ map (fun pattern => (pattern, title_search)) title_patterns.

Fixpoint first_rule (rules : list (string * intent_kind)) (s : string)
  : option (intent_kind * string) :=
  match rules with
  | [] => None
  | (pattern, kind) :: rest =>
      match re_search pattern s with
      | Some m => Some (kind, group1 m)
      | None => first_rule rest s
      end
  end.

Definition classify (post : string -> string) (input : string) : intent_data :=
  match first_rule prioritized_patterns (lower input) with
  | Some (kind, captured) => Intent kind (post captured)
  | None => Intent similarity_search input
  end.

(** *** The conversation surface *)

Inductive reply :=
  (* "I'm here and ready to help! What kind of book are you looking for?" *)
  | ReadyToHelp
  (* random.choice(self.greeting_messages) *)
  | Greeting (i : nat)
  (* "Happy reading! Come back anytime you need more book recommendations!" *)
  | Farewell
  (* random.choice(responses) of generate_no_results_response *)
  | NoResults (i : nat) (user_input : string)
  (* response.text of the model *)
  | Generated (text : string)
  (* fallback_response: the first three recommendations, listed *)
  | Fallback (top : list result) (user_input : string).

(** An entry of [conversation_history], without its timestamp. *)
Inductive history_entry :=
  | UserInput (user : string)
  | BotResponse (bot : reply) (recommendations : nat).

(** What a chat turn asks of its collaborators. *)
Inductive effect :=
  | Lookup (kind : intent_kind) (q : string)
  | ModelCall (user_input : string) (top : list result).

Record chatbot := Chatbot {
  books_df : list (gmap string string);
  conversation_history : list history_entry
}.

Definition entry (m : string) (book : gmap string string) : result :=
  Result (book !! "title") (book !! "author") (book !! "description") (match_type m).

Section Chat.

Variable similarity : string -> nat -> Q.
Variable argsort : list Q -> list nat.
(** [Series.str.contains(pat, case=False, na=False)] on one cell. *)
Variable str_contains : string -> option string -> bool.
(** [self.model.generate_content(prompt).text], [None] when it raises. *)
Variable generate_content : string -> list result -> option string.
(** [random.choice] over [n] messages: the index it picks. *)
Variable random_index : nat -> nat.

Definition search_by_title (df : list (gmap string string)) (title_query : string)
  : list result :=
  let title_matches := List.filter (fun book => str_contains title_query (book !! "title")) df in
  map (entry "title_match") (take 10 title_matches).

Definition get_recommendations_by_author (df : list (gmap string string))
    (author_query : string) : list result :=
  let author_matches :=
    List.filter (fun book => str_contains author_query (book !! "author")) df in
  map (entry "author_match") (take 8 author_matches).

Definition generate_no_results_response (user_input : string) : reply :=
  NoResults (random_index 3) user_input.

Definition fallback_response (recommendations : list result) (user_input : string)
  : reply :=
  match recommendations with
  | [] => generate_no_results_response user_input
  | _ => Fallback (take 3 recommendations) user_input
  end.

Definition generate_human_response (recommendations : list result)
    (user_input : string) : reply * list effect :=
  match recommendations with
  | [] => (generate_no_results_response user_input, [])
  | _ =>
      let top := take 3 recommendations in
      match generate_content user_input top with
      | Some text => (Generated text, [ModelCall user_input top])
      | None => (fallback_response recommendations user_input, [ModelCall user_input top])
      end
  end.

Definition chat (user_input : string) (b : chatbot) : reply * chatbot * list effect :=
  if negb (truthy (strip user_input)) then (ReadyToHelp, b, [])
  else
    let b1 := Chatbot (books_df b) (conversation_history b ++ [UserInput user_input]) in
    if bool_decide (lower user_input ∈ ["hello"; "hi"; "hey"]) then
      (Greeting (random_index 3), b1, [])
    else if bool_decide (lower user_input ∈ ["bye"; "goodbye"; "exit"; "quit"]) then
      (Farewell, b1, [])
    else
      let intent_data := detect_intent user_input in
      let recommendations :=
        match intent intent_data with
        | author_search => get_recommendations_by_author (books_df b1) (query intent_data)
        | title_search => search_by_title (books_df b1) (query intent_data)
        | similarity_search =>
            find_similar_books similarity argsort (books_df b1) (query intent_data) 5
        end in
      let '(response, asked) := generate_human_response recommendations user_input in
      (response,
       Chatbot (books_df b1)
               (conversation_history b1 ++ [BotResponse response (length recommendations)]),
       Lookup (intent intent_data) (query intent_data) :: asked).

End Chat.

End Books.

(** ** Facts about the string operations *)

Module TextFacts.

Example lower_mixed : lower "Extra LARGE" = "extra large".
Proof. reflexivity. Qed.

Example strip_both : strip "  bell pepper  " = "bell pepper".
Proof. reflexivity. Qed.

Example contains_done : contains "done" "i am done now" = true.
Proof. reflexivity. Qed.

(** Lower-casing neither creates nor removes white space. *)
Lemma is_space_lower_char c : is_space (lower_char c) = is_space c.
Proof.
  unfold lower_char. destruct (is_upper c) eqn:E; [|done].
  destruct c as [[] [] [] [] [] [] [] []]; vm_compute in E; try discriminate; reflexivity.
Qed.

Lemma lstrip_lower s : lstrip (lower s) = lower (lstrip s).
Proof.
  induction s as [|c s IH]; simpl; [done|].
  rewrite is_space_lower_char. destruct (is_space c); done.
Qed.

Lemma rstrip_lower s : rstrip (lower s) = lower (rstrip s).
Proof.
  induction s as [|c s IH]; simpl; [done|].
  rewrite IH, is_space_lower_char.
  destruct (rstrip s); simpl; [destruct (is_space c)|]; done.
Qed.

Lemma strip_lower s : strip (lower s) = lower (strip s).
Proof. unfold strip. by rewrite lstrip_lower, rstrip_lower. Qed.

End TextFacts.

(** ** The order machine *)

Module PizzaSpec.
Import Pizza.

(** *** Dictionaries *)

Lemma dict_get_None {V} (d : list (string * V)) k :
  dict_get d k = None <-> k ∉ keys d.
Proof.
  induction d as [|[k' v] d IH]; simpl.
  - split; [intros _; apply not_elem_of_nil|done].
  - rewrite not_elem_of_cons. destruct (String.eqb_spec k' k) as [->|Hne].
    + split; [done|]. by intros [? _].
    + rewrite IH. split; [intros ?; split; congruence|by intros [_ ?]].
Qed.

Lemma dict_get_Some_key {V} (d : list (string * V)) k v :
  dict_get d k = Some v -> k ∈ keys d.
Proof.
  intros H. destruct (decide (k ∈ keys d)) as [|Hn]; [done|].
  apply dict_get_None in Hn. congruence.
Qed.

Lemma keys_pizza_sizes : keys pizza_sizes = ["small"; "medium"; "large"; "extra large"].
Proof. reflexivity. Qed.

(** A key of [pizza_sizes] is not the empty string, so a valid size is truthy. *)
Lemma valid_size_truthy s : is_Some (dict_get pizza_sizes s) -> truthy s = true.
Proof. intros [info H]. destruct s; [discriminate H|done]. Qed.

(** *** The typo table *)

Lemma typo_table_keys_NoDup : NoDup (typo_table.*1).
Proof. apply (bool_decide_unpack _). vm_compute. exact I. Qed.

Lemma typo_map_present key canonical :
  (key, canonical) ∈ typo_table -> typo_map !! key = Some canonical.
Proof. apply elem_of_list_to_map_1, typo_table_keys_NoDup. Qed.

Lemma typo_map_absent key : key ∉ keys typo_table -> typo_map !! key = None.
Proof. apply not_elem_of_list_to_map_1. Qed.

(** C9, as the source has it.  [normalize_ingredient] lower-cases and trims
    its argument and looks the result up in the typo table: it returns the
    mapped canonical name when that key is present, and otherwise the
    lower-cased, trimmed string (not the argument as it was passed).  So
    "peperoni" and "pepperoni" both normalize to "pepperoni". *)
Theorem normalize_ingredient_lookup (raw : string) :
  let key := strip (lower raw) in
  (forall canonical, (key, canonical) ∈ typo_table ->
                     normalize_ingredient raw = canonical)
  /\ (key ∉ keys typo_table -> normalize_ingredient raw = key)
  /\ normalize_ingredient "peperoni" = "pepperoni"
  /\ normalize_ingredient "pepperoni" = "pepperoni".
Proof.
  intros key. unfold normalize_ingredient. fold key. repeat split.
  - intros canonical Hin. by rewrite (typo_map_present _ _ Hin).
  - intros Hout. by rewrite (typo_map_absent _ Hout).
Qed.

(** C9 as stated fails: " Ham " has no entry in the table (neither as passed
    nor lower-cased and trimmed), and yet it is not returned unchanged. *)
Lemma normalize_ingredient_changes_input :
  (strip (lower " Ham ") ∉ keys typo_table)
  /\ (" Ham " ∉ keys typo_table)
  /\ normalize_ingredient " Ham " = "ham"
  /\ normalize_ingredient " Ham " <> " Ham ".
Proof.
  split; [|split; [|split]].
  - apply (bool_decide_unpack _). vm_compute. exact I.
  - apply (bool_decide_unpack _). vm_compute. exact I.
  - vm_compute. reflexivity.
  - vm_compute. discriminate.
Qed.

(** *** [set_pizza_size] *)

Lemma set_pizza_size_ingredients raw o :
  ingredients (set_pizza_size raw o).2 = ingredients o.
Proof. unfold set_pizza_size. by destruct (dict_get _ _). Qed.

(** C7.  With a string that, lower-cased and trimmed, is none of the four
    tiers, [set_pizza_size] leaves the whole order as it was and answers
    with the unknown-size reply; with a tier it stores that tier as the size,
    reports the tier's description and price, and leaves the ingredient list
    (and the other fields) as they were, also when a size was set before. *)
Theorem set_pizza_size_spec (raw : string) (o : order) :
  let tiers := ["small"; "medium"; "large"; "extra large"] in
  let key := strip (lower raw) in
  (key ∉ tiers -> set_pizza_size raw o = (Return (UnknownSize tiers), o))
  /\ (key ∈ tiers ->
      exists info, dict_get pizza_sizes key = Some info
        /\ set_pizza_size raw o
           = (Return (SizeSet key (description info) (price info)),
              Order (Some key) (ingredients o) (total_price o) (confirmed o)))
  /\ (forall raw2, strip (lower raw2) ∈ tiers ->
        let o2 := (set_pizza_size raw2 (set_pizza_size raw o).2).2 in
        size o2 = Some (strip (lower raw2)) /\ ingredients o2 = ingredients o).
Proof.
  intros tiers key.
  assert (Ht : tiers = keys pizza_sizes) by reflexivity. clearbody tiers. subst tiers.
  assert (Hvalid : forall k, k ∈ keys pizza_sizes -> is_Some (dict_get pizza_sizes k)).
  { intros k Hk. destruct (dict_get pizza_sizes k) eqn:E; [by eexists|].
    by apply dict_get_None in E. }
  split; [|split].
  - intros Hout. apply dict_get_None in Hout.
    unfold set_pizza_size. fold key. by rewrite Hout.
  - intros Hin. destruct (Hvalid _ Hin) as [info Hinfo]. exists info.
    unfold set_pizza_size. fold key. by rewrite Hinfo.
  - intros raw2 Hin. destruct (Hvalid _ Hin) as [info Hinfo]. split.
    + unfold set_pizza_size at 1. by rewrite Hinfo.
    + by rewrite !set_pizza_size_ingredients.
Qed.

(** *** How each function changes the order *)

Lemma first_in_category_spec normalized category orig :
  first_in_category normalized category = Some orig ->
  orig ∈ category /\ lower orig = normalized.
Proof.
  intros H. apply find_some in H as [Hin Heq]. split.
  - by apply list_elem_of_In.
  - by apply String.eqb_eq.
Qed.

Lemma first_hit_spec normalized categories orig :
  first_hit normalized categories = Some orig ->
  orig ∈ concat categories /\ lower orig = normalized.
Proof.
  induction categories as [|category rest IH]; simpl; [done|].
  destruct (first_in_category normalized category) as [x|] eqn:E.
  - intros [= ->]. apply first_in_category_spec in E as [? ?].
    split; [|done]. apply elem_of_app. by left.
  - intros H. apply IH in H as [? ?]. split; [|done]. apply elem_of_app. by right.
Qed.

Lemma hits_from_categories normalized categories :
  Forall (fun ing => ing ∈ concat categories)
         (omap (first_in_category normalized) categories).
Proof.
  induction categories as [|category rest IH]; simpl; [constructor|].
  assert (Hrest : Forall (fun ing => ing ∈ (category ++ concat rest)%list)
                         (omap (first_in_category normalized) rest)).
  { eapply Forall_impl; [exact IH|]. intros x Hx. apply elem_of_app. by right. }
  destruct (first_in_category normalized category) as [x|] eqn:E; [|done].
  constructor; [|done]. apply first_in_category_spec in E as [? _].
  apply elem_of_app. by left.
Qed.

Lemma create_pizza_with_size_change sz main o :
  change o (create_pizza_with_size sz main o).2.
Proof.
  unfold create_pizza_with_size.
  destruct (dict_get pizza_sizes (strip (lower sz))) as [info|] eqn:E;
    [|constructor].
  cbv zeta. unfold set_ingredients, set_size. cbn [snd size ingredients total_price confirmed].
  apply ch_create; [by eexists|].
  destruct main as [m|]; [|constructor].
  destruct (truthy m); [|constructor].
  case_bool_decide; [|constructor]. apply hits_from_categories.
Qed.

Lemma add_ingredient_order ingredient o :
  (add_ingredient ingredient o).2 = o
  \/ exists orig, (orig ∈ catalog_names) /\ (orig ∉ ingredients o)
       /\ (add_ingredient ingredient o).2
          = set_ingredients (ingredients o ++ [orig]) o.
Proof.
  unfold add_ingredient.
  destruct (first_hit (normalize_ingredient ingredient) (values available_ingredients))
    as [orig|] eqn:E; repeat case_bool_decide; auto.
  apply first_hit_spec in E as [Hin Hlow]. right. exists orig.
  split; [done|]. split; [|done].
  intros Hdup. match goal with H : _ ∉ map lower _ |- _ => apply H end.
  rewrite <- Hlow. by apply (list_elem_of_fmap_2 lower).
Qed.

Lemma add_ingredient_change ingredient o :
  change o (add_ingredient ingredient o).2.
Proof.
  destruct (add_ingredient_order ingredient o) as [->|(orig & ? & ? & ->)];
    [constructor|by apply ch_add].
Qed.

Lemma set_pizza_size_change sz o : change o (set_pizza_size sz o).2.
Proof.
  unfold set_pizza_size.
  destruct (dict_get pizza_sizes (strip (lower sz))) as [info|] eqn:E;
    [|constructor].
  apply ch_size. by eexists.
Qed.

Lemma remove_ingredient_change ingredient o :
  change o (remove_ingredient ingredient o).2.
Proof.
  unfold remove_ingredient. destruct (list_find _ _) as [[i removed]|]; simpl;
    constructor.
Qed.

Lemma show_current_order_same o : (show_current_order o).2 = o.
Proof.
  unfold show_current_order. destruct (size o) as [s|]; [|done].
  destruct (truthy s); [|done]. by destruct (dict_get pizza_sizes s).
Qed.

Lemma confirm_order_change o : change o (confirm_order o).2.
Proof.
  unfold confirm_order, size_chosen. destruct (size o) as [s|] eqn:Es; [|constructor].
  destruct (truthy s) eqn:Et; [|constructor].
  destruct (ingredients o) as [|x l] eqn:Ei; [constructor|].
  assert (Hc : change o (set_confirmed true o)).
  { apply ch_confirm; [unfold size_chosen; by rewrite Es|by rewrite Ei]. }
  by destruct (dict_get pizza_sizes s).
Qed.

Lemma execute_function_change function_name parameters o :
  change o (execute_function function_name parameters o).2.
Proof.
  unfold execute_function.
  repeat match goal with |- context [String.eqb ?a ?b] => destruct (String.eqb a b) end;
    auto using create_pizza_with_size_change, add_ingredient_change,
      set_pizza_size_change, remove_ingredient_change, confirm_order_change.
  - rewrite show_current_order_same. constructor.
  - constructor.
  - constructor.
Qed.

Lemma catch_order r : (catch r).2 = r.2.
Proof. by destruct r as [[x|e] o]. Qed.

Lemma dispatch_parts_change parts o r :
  dispatch_parts parts o = Some r -> change o r.2.
Proof.
  induction parts as [|[name args|text|] rest IH]; simpl; [done|..|done].
  - destruct (_ && _); intros [= <-]; apply execute_function_change.
  - destruct (truthy text); [|done]. intros [= <-]. constructor.
Qed.

Lemma chat_change generate_content user_message o :
  change o (chat generate_content user_message o).1.2.
Proof.
  unfold chat. destruct (existsb _ _).
  - destruct (_ && _); cbn [fst snd]; rewrite catch_order.
    + apply confirm_order_change.
    + rewrite show_current_order_same. constructor.
  - destruct (generate_content _) as [[|parts cs]|e]; try constructor.
    destruct (dispatch_parts parts o) as [r|] eqn:E; [|constructor].
    cbn [fst snd]. rewrite catch_order. by eapply dispatch_parts_change.
Qed.

(** *** What a change preserves *)

Lemma change_total_price o o' : change o o' -> total_price o' = total_price o.
Proof. by destruct 1. Qed.

Lemma change_confirmed o o' :
  change o o' -> confirmed o = true -> confirmed o' = true.
Proof. by destruct 1. Qed.

Lemma change_confirms o o' :
  change o o' -> confirmed o = false -> confirmed o' = true ->
  size_chosen o = true /\ ingredients o <> [] /\ o' = set_confirmed true o.
Proof. destruct 1; simpl; intros; try congruence. done. Qed.


Lemma change_from_catalog o o' : change o o' -> from_catalog o -> from_catalog o'.
Proof.
  unfold from_catalog. destruct 1; simpl; intros Ho; try done.
  - by apply Forall_app.
  - apply Forall_app. split; [done|]. by apply Forall_singleton.
  - by apply Forall_delete.
Qed.

Lemma reachable_change_closed (P : order -> Prop) :
  P initial_order ->
  (forall o o', change o o' -> P o -> P o') ->
  forall o, reachable o -> P o.
Proof.
  intros Hinit Hstep o Hr. induction Hr; [done|..].
  - eapply Hstep; [apply execute_function_change|done].
  - eapply Hstep; [apply chat_change|done].
Qed.


Lemma reachable_from_catalog o : reachable o -> from_catalog o.
Proof.
  apply reachable_change_closed; [constructor|apply change_from_catalog].
Qed.

(** *** [confirm_order] *)

(** C2.  On an order whose size is unset or a key of the size table,
    [confirm_order] confirms exactly when the size is set and the ingredient
    list is non-empty.  It then sets [confirmed] (and nothing else) and
    reports as total the price of the size in the table; with no size it
    answers "select a size first", with a size and no ingredient "add
    toppings first", and in both cases the order is returned as it was. *)
Theorem confirm_order_spec (o : order) :
  size_valid o ->
  (confirms o <-> is_Some (size o) /\ ingredients o <> [])
  /\ (is_Some (size o) -> ingredients o <> [] ->
      exists s info, size o = Some s /\ dict_get pizza_sizes s = Some info
        /\ confirm_order o
           = (Return (OrderConfirmed s (ingredients o) (price info)),
              Order (size o) (ingredients o) (total_price o) true))
  /\ (size o = None -> confirm_order o = (Return SelectSizeFirst, o))
  /\ (is_Some (size o) -> ingredients o = [] ->
      confirm_order o = (Return AddToppingsFirst, o)).
Proof.
  unfold size_valid, confirms, confirm_order.
  destruct o as [[s|] ings total c]; cbn [size ingredients total_price confirmed].
  - intros Hs. rewrite (valid_size_truthy s Hs). destruct Hs as [info Hinfo].
    rewrite Hinfo. destruct ings as [|x l]; cbn [fst set_confirmed ingredients].
    + split; [split|split; [|split]]; try done.
      * by intros (? & ? & ? & ?).
      * by intros [_ ?].
    + split; [split|split; [|split]]; try done.
      * intros _. by eexists _, _, _.
      * intros _ _. by exists s, info.
  - intros _. split; [split|split; [|split]]; try done.
    + by intros (? & ? & ? & ?).
    + by intros [[? ?] _].
Qed.

(** The large pizza with olives of the specification: confirmed, at 18.99. *)
Lemma confirm_order_large_olives :
  let o := Order (Some "large") ["olives"] 0 false in
  size_valid o
  /\ confirm_order o
     = (Return (OrderConfirmed "large" ["olives"] (1899 # 100)),
        Order (Some "large") ["olives"] 0 true).
Proof.
  intros o.
  assert (Hv : size_valid o) by (by eexists).
  split; [exact Hv|].
  destruct (confirm_order_spec o Hv) as (_ & Hok & _).
  destruct Hok as (s & info & Hs & Hinfo & ->); [by eexists|done|].
  injection Hs as <-. by injection Hinfo as <-.
Defined.

(** *** The [confirmed] flag *)

Lemma create_pizza_with_size_confirmed sz main o :
  confirmed (create_pizza_with_size sz main o).2 = confirmed o.
Proof. unfold create_pizza_with_size. by destruct (dict_get _ _). Qed.

Lemma add_ingredient_confirmed ingredient o :
  confirmed (add_ingredient ingredient o).2 = confirmed o.
Proof.
  by destruct (add_ingredient_order ingredient o) as [->|(orig & ? & ? & ->)].
Qed.

Lemma set_pizza_size_confirmed sz o :
  confirmed (set_pizza_size sz o).2 = confirmed o.
Proof. unfold set_pizza_size. by destruct (dict_get _ _). Qed.

Lemma remove_ingredient_confirmed ingredient o :
  confirmed (remove_ingredient ingredient o).2 = confirmed o.
Proof. unfold remove_ingredient. by destruct (list_find _ _) as [[i removed]|]. Qed.

Lemma confirm_order_sets o :
  size_chosen o = true -> ingredients o <> [] ->
  (confirm_order o).2 = set_confirmed true o.
Proof.
  unfold size_chosen, confirm_order. destruct (size o) as [s|]; [|done].
  intros -> Hne. destruct (ingredients o); [done|]. by destruct (dict_get _ _).
Qed.

(** C8.  A dispatched function or a chat turn never takes [confirmed] from
    true to false.  When one takes it from false to true, the size was set
    and the ingredient list non-empty, the new order is the one
    [confirm_order] produces, and the dispatched function was
    ["confirm_order"]. *)
Theorem confirmed_only_by_confirm_order
    (function_name : string) (parameters : gmap string string)
    (generate_content : prompt -> model_response) (user_message : string)
    (o : order) :
  let o1 := (execute_function function_name parameters o).2 in
  let o2 := (chat generate_content user_message o).1.2 in
  (confirmed o = true -> confirmed o1 = true /\ confirmed o2 = true)
  /\ (confirmed o = false -> confirmed o1 = true ->
      function_name = "confirm_order" /\ size_chosen o = true
      /\ ingredients o <> [] /\ o1 = (confirm_order o).2)
  /\ (confirmed o = false -> confirmed o2 = true ->
      size_chosen o = true /\ ingredients o <> [] /\ o2 = (confirm_order o).2).
Proof.
  intros o1 o2.
  pose proof (execute_function_change function_name parameters o) as H1.
  pose proof (chat_change generate_content user_message o) as H2.
  fold o1 in H1. fold o2 in H2. split; [|split].
  - intros Hc. split; eapply change_confirmed; eauto.
  - intros Hf Ht. destruct (change_confirms _ _ H1 Hf Ht) as (Hs & Hi & Ho).
    rewrite (confirm_order_sets o Hs Hi). repeat split; try done.
    subst o1. clear H1 Ho. revert Ht. unfold execute_function.
    destruct (String.eqb function_name "create_pizza_with_size");
      [rewrite create_pizza_with_size_confirmed; congruence|].
    destruct (String.eqb function_name "add_ingredient");
      [rewrite add_ingredient_confirmed; congruence|].
    destruct (String.eqb function_name "set_pizza_size");
      [rewrite set_pizza_size_confirmed; congruence|].
    destruct (String.eqb function_name "remove_ingredient");
      [rewrite remove_ingredient_confirmed; congruence|].
    destruct (String.eqb function_name "show_current_order");
      [rewrite show_current_order_same; congruence|].
    destruct (String.eqb_spec function_name "confirm_order"); [done|].
    destruct (String.eqb function_name "show_available_ingredients");
      simpl; congruence.
  - intros Hf Ht. destruct (change_confirms _ _ H2 Hf Ht) as (Hs & Hi & Ho).
    by rewrite (confirm_order_sets o Hs Hi).
Qed.

(** *** The [total_price] field *)

Lemma reachable_total_price o : reachable o -> total_price o = 0%Q.
Proof.
  apply (reachable_change_closed (fun o => total_price o = 0%Q)); [done|].
  intros o1 o2 Hc. by rewrite (change_total_price _ _ Hc).
Qed.

(** No function reads the field: with another value in it, the reply is the
    same and the resulting order differs in that field only. *)
Lemma execute_function_ignores_total function_name parameters q o :
  execute_function function_name parameters (set_total_price q o)
  = ((execute_function function_name parameters o).1,
     set_total_price q (execute_function function_name parameters o).2).
Proof.
  destruct o as [sz ings total c].
  unfold execute_function, set_total_price.
  repeat match goal with |- context [String.eqb ?a ?b] => destruct (String.eqb a b) end;
    try reflexivity.
  - unfold create_pizza_with_size. by destruct (dict_get _ _).
  - unfold add_ingredient; cbn [size ingredients total_price confirmed].
    repeat case_bool_decide; try reflexivity. by destruct (first_hit _ _).
  - unfold set_pizza_size. by destruct (dict_get _ _).
  - unfold remove_ingredient; cbn [size ingredients total_price confirmed].
    by destruct (list_find _ _) as [[i removed]|].
  - unfold show_current_order; cbn [size ingredients total_price confirmed].
    destruct sz as [s|]; [|done]. destruct (truthy s); [|done].
    by destruct (dict_get _ _).
  - unfold confirm_order; cbn [size ingredients total_price confirmed].
    destruct sz as [s|]; [|done]. destruct (truthy s); [|done].
    destruct ings; [done|]. by destruct (dict_get _ _).
Qed.

Lemma execute_function_prices function_name parameters o r :
  (execute_function function_name parameters o).1 = Return r ->
  prices_from_table o r.
Proof.
  unfold execute_function.
  repeat match goal with |- context [String.eqb ?a ?b] => destruct (String.eqb a b) end.
  - unfold create_pizza_with_size.
    destruct (dict_get _ _) as [info|] eqn:E; intros [= <-]; [|done]. by exists info.
  - unfold add_ingredient. repeat case_bool_decide; try by intros [= <-].
    by destruct (first_hit _ _); intros [= <-].
  - unfold set_pizza_size.
    destruct (dict_get _ _) as [info|] eqn:E; intros [= <-]; [|done]. by exists info.
  - unfold remove_ingredient.
    by destruct (list_find _ _) as [[i removed]|]; intros [= <-].
  - unfold show_current_order. destruct (size o) as [s|] eqn:Es; [|by intros [= <-]].
    destruct (truthy s); [|by intros [= <-]].
    destruct (dict_get pizza_sizes s) as [info|] eqn:E; intros [= <-].
    exists s. split; [done|]. split; [by exists info|done].
  - unfold confirm_order. destruct (size o) as [s|] eqn:Es; [|by intros [= <-]].
    destruct (truthy s); [|by intros [= <-]].
    destruct (ingredients o); [by intros [= <-]|].
    destruct (dict_get pizza_sizes s) as [info|] eqn:E; intros [= <-].
    split; [done|]. by exists info.
  - by intros [= <-].
  - by intros [= <-].
Qed.

(** C10.  [total_price] starts at 0.0 and no dispatched function and no chat
    turn changes it, a successful [confirm_order] included, so it is 0.0 in
    every order a session reaches.  No function reads it either: the reply
    does not depend on it, and every price in a reply is the price the size
    table gives. *)
Theorem total_price_never_updated
    (function_name : string) (parameters : gmap string string)
    (generate_content : prompt -> model_response) (user_message : string)
    (o : order) (q : Q) :
  total_price initial_order = 0%Q
  /\ total_price (execute_function function_name parameters o).2 = total_price o
  /\ total_price (chat generate_content user_message o).1.2 = total_price o
  /\ total_price (confirm_order o).2 = total_price o
  /\ (reachable o -> total_price o = 0%Q)
  /\ (execute_function function_name parameters (set_total_price q o)).1
     = (execute_function function_name parameters o).1
  /\ (forall r, (execute_function function_name parameters o).1 = Return r ->
                prices_from_table o r).
Proof.
  split; [done|]. split; [|split; [|split; [|split; [|split]]]].
  - apply change_total_price, execute_function_change.
  - apply change_total_price, chat_change.
  - apply change_total_price, confirm_order_change.
  - apply reachable_total_price.
  - by rewrite execute_function_ignores_total.
  - intros r. apply execute_function_prices.
Qed.

(** *** The ingredient list as a set of catalog names *)

(** Every dispatched function keeps the ingredients among the catalog names,
    in the catalog's spelling. *)
Lemma execute_function_from_catalog function_name parameters o :
  from_catalog o -> from_catalog (execute_function function_name parameters o).2.
Proof. apply change_from_catalog, execute_function_change. Qed.

Lemma add_ingredient_NoDup ingredient o :
  NoDup (ingredients o) -> NoDup (ingredients (add_ingredient ingredient o).2).
Proof.
  intros Hnd.
  destruct (add_ingredient_order ingredient o) as [->|(orig & _ & Hnew & ->)]; [done|].
  cbn [set_ingredients ingredients]. apply NoDup_app. split; [done|].
  split; [|apply NoDup_singleton].
  intros x Hx Hx'. apply list_elem_of_singleton in Hx'. by subst.
Qed.

Lemma remove_ingredient_NoDup ingredient o :
  NoDup (ingredients o) -> NoDup (ingredients (remove_ingredient ingredient o).2).
Proof.
  intros Hnd. unfold remove_ingredient.
  destruct (list_find _ _) as [[i removed]|]; [|done].
  cbn [snd set_ingredients ingredients].
  apply (sublist_NoDup _ _ Hnd), sublist_delete.
Qed.

Lemma confirm_order_ingredients o :
  ingredients (confirm_order o).2 = ingredients o.
Proof.
  unfold confirm_order. destruct (size o) as [s|]; [|done].
  destruct (truthy s); [|done]. destruct (ingredients o) eqn:E; [done|].
  by destruct (dict_get _ _).
Qed.

(** Every function but [create_pizza_with_size] keeps the list free of
    duplicates. *)
Lemma execute_function_NoDup function_name parameters o :
  function_name <> "create_pizza_with_size" ->
  NoDup (ingredients o) ->
  NoDup (ingredients (execute_function function_name parameters o).2).
Proof.
  intros Hname Hnd. unfold execute_function.
  destruct (String.eqb_spec function_name "create_pizza_with_size"); [done|].
  repeat match goal with |- context [String.eqb ?a ?b] => destruct (String.eqb a b) end;
    try done.
  - by apply add_ingredient_NoDup.
  - by rewrite set_pizza_size_ingredients.
  - by apply remove_ingredient_NoDup.
  - by rewrite show_current_order_same.
  - by rewrite confirm_order_ingredients.
Qed.

(** C3, where the source departs from it.  [add_ingredient] refuses a name
    that is already on the pizza; [create_pizza_with_size] appends its main
    ingredient without that test.  After "pepperoni" was added, creating a
    large pepperoni pizza leaves pepperoni twice in the list: the names stay
    catalog names, but the list is no longer a set. *)
Theorem create_pizza_with_size_duplicates :
  let o := (add_ingredient "pepperoni" initial_order).2 in
  let parameters : gmap string string :=
    {[ "size" := "large"; "main_ingredient" := "pepperoni" ]} in
  let o' := (execute_function "create_pizza_with_size" parameters o).2 in
  ingredients o = ["pepperoni"]
  /\ NoDup (ingredients o)
  /\ ingredients o' = ["pepperoni"; "pepperoni"]
  /\ ~ NoDup (ingredients o')
  /\ from_catalog o'.
Proof.
  intros o parameters o'.
  assert (Ho : ingredients o = ["pepperoni"]) by (vm_compute; reflexivity).
  assert (Ho' : ingredients o' = ["pepperoni"; "pepperoni"]) by (vm_compute; reflexivity).
  split; [done|]. split; [rewrite Ho; apply NoDup_singleton|].
  split; [done|]. split.
  - rewrite Ho'. intros Hnd. apply NoDup_cons in Hnd as [Hnotin _].
    apply Hnotin. by apply list_elem_of_singleton.
  - apply execute_function_from_catalog.
    apply (change_from_catalog initial_order); [apply add_ingredient_change|constructor].
Qed.

End PizzaSpec.

(** ** The retrieval pipeline *)

Module BooksSpec.
Import Books.

(** *** The intent router *)

Lemma first_rule_app rules1 rules2 s :
  first_rule (rules1 ++ rules2) s
  = match first_rule rules1 s with
    | Some hit => Some hit
    | None => first_rule rules2 s
    end.
Proof.
  induction rules1 as [|[pattern kind] rest IH]; simpl; [by destruct (first_rule _ _)|].
  by destruct (re_search pattern s).
Qed.

Lemma first_rule_tagged kind patterns s :
  first_rule (map (fun pattern => (pattern, kind)) patterns) s
  = (fun m => (kind, group1 m)) <$> first_match patterns s.
Proof.
  induction patterns as [|pattern rest IH]; simpl; [done|].
  by destruct (re_search pattern s).
Qed.

(** The matcher on the cases that tell a backtracking search apart: the
    group is greedy and gives back characters until the rest matches, it
    stops at a newline, and the leftmost start wins. *)
Example group_is_greedy :
  re_search "(.+)'s books?" "a's book's books" = Some ["a's book"].
Proof. reflexivity. Qed.

Example group_gives_back :
  re_search "from (.+) author" "from the great author author x"
  = Some ["the great author"].
Proof. reflexivity. Qed.

Example group_stops_at_newline :
  re_search "find (.+)" (String.append "find a" (String newline "b")) = Some ["a"].
Proof. reflexivity. Qed.

Example author_before_title :
  detect_intent "I am looking for books by Tolkien" = Intent author_search "tolkien".
Proof. reflexivity. Qed.

(** C5, as the source has it.  [detect_intent] is the router of the
    specification with the captured group trimmed of white space at both
    ends: author patterns before title patterns, matched against the
    lower-cased input, the first match giving the kind and its trimmed
    group the query; with no match the kind is [similarity_search] and the
    query the whole input as typed.  Two inputs that differ in letter case
    only get the same kind, and the same query unless it is the fallback.
    The three examples of the specification hold. *)
Theorem detect_intent_classifies (user_input other : string) :
  detect_intent user_input = classify strip user_input
  /\ (first_rule prioritized_patterns (lower user_input) = None ->
      detect_intent user_input = Intent similarity_search user_input)
  /\ (lower user_input = lower other ->
      intent (detect_intent user_input) = intent (detect_intent other)
      /\ (intent (detect_intent user_input) <> similarity_search ->
          detect_intent user_input = detect_intent other))
  /\ detect_intent "books by Jane Austen" = Intent author_search "jane austen"
  /\ detect_intent "book called Dune" = Intent title_search "dune"
  /\ detect_intent "something about dragons"
     = Intent similarity_search "something about dragons".
Proof.
  assert (Hclassify : forall u, detect_intent u = classify strip u).
  { intros u. unfold detect_intent, classify, prioritized_patterns.
    rewrite first_rule_app, !first_rule_tagged.
    destruct (first_match author_patterns (lower u)); [done|].
    by destruct (first_match title_patterns (lower u)). }
  split; [apply Hclassify|]. split; [|split].
  - intros Hnone. rewrite Hclassify. unfold classify. by rewrite Hnone.
  - intros Hlow. rewrite !Hclassify. unfold classify. rewrite <- Hlow.
    destruct (first_rule prioritized_patterns (lower user_input)) as [[kind g]|];
      [done|].
    split; [done|]. by intros [].
  - repeat split; vm_compute; reflexivity.
Qed.

(** C5 as stated fails on the query: with two spaces after "by", the group
    the first author pattern captures starts with a space and the query
    returned does not. *)
Lemma detect_intent_trims_group :
  re_search "books? by (.+)" (lower "books by  Austen") = Some [" austen"]
  /\ detect_intent "books by  Austen" = Intent author_search "austen"
  /\ detect_intent "books by  Austen" <> classify (fun g => g) "books by  Austen".
Proof.
  split; [vm_compute; reflexivity|]. split; [vm_compute; reflexivity|].
  vm_compute. discriminate.
Qed.

(** *** The catalog loader *)

Lemma elem_of_filter_bool {A} (f : A -> bool) (l : list A) x :
  x ∈ List.filter f l <-> x ∈ l /\ f x = true.
Proof. rewrite !list_elem_of_In. apply filter_In. Qed.





(** *** The ranker *)

Lemma above_threshold_spec s : above_threshold s = true <-> (threshold < s)%Q.
Proof.
  unfold above_threshold. rewrite negb_true_iff.
  split.
  - intros H. apply Qnot_le_lt. intros Hle. apply Qle_bool_iff in Hle. congruence.
  - intros H. destruct (Qle_bool s threshold) eqn:E; [|done].
    apply Qle_bool_iff in E. by apply Qlt_not_le in H.
Qed.

Lemma filter_bool_sublist {A} (f : A -> bool) l : List.filter f l `sublist_of` l.
Proof.
  induction l as [|x l IH]; simpl; [constructor|].
  destruct (f x); by constructor.
Qed.

Lemma slice_to_sublist {A} k (l : list A) : slice_to k l `sublist_of` l.
Proof. unfold slice_to. destruct (0 <=? k)%Z; apply sublist_take. Qed.


Lemma StronglySorted_sublist {A} (R : relation A) l1 l2 :
  l1 `sublist_of` l2 -> StronglySorted R l2 -> StronglySorted R l1.
Proof.
  induction 1 as [|x l1 l2 Hsub IH|x l1 l2 Hsub IH]; intros Hs; [done|..].
  - apply StronglySorted_inv in Hs as [Hs Hall]. constructor; [by apply IH|].
    apply Forall_forall. intros y Hy. rewrite Forall_forall in Hall.
    apply Hall. by eapply elem_of_sublist.
  - apply StronglySorted_inv in Hs as [Hs _]. by apply IH.
Qed.

Lemma StronglySorted_rev {A} (R : relation A) l :
  StronglySorted R l -> StronglySorted (flip R) (rev l).
Proof.
  induction 1 as [|x l Hs IH Hall]; simpl; [constructor|].
  apply StronglySorted_app. split; [|split]; [|done|repeat constructor].
  intros y z Hy Hz. apply list_elem_of_singleton in Hz as ->.
  apply list_elem_of_In, in_rev, list_elem_of_In in Hy. unfold flip.
  rewrite Forall_forall in Hall. by apply Hall.
Qed.

(** Ascending by value, checked on neighbours, is ascending throughout. *)
Lemma ascending_StronglySorted similarities p :
  ascending similarities p = true ->
  StronglySorted (fun i j => (key similarities i <= key similarities j)%Q) p.
Proof.
  intros Hasc. apply Sorted_StronglySorted.
  { intros i j l. apply Qle_trans. }
  induction p as [|i [|j rest] IH]; [constructor|repeat constructor|].
  simpl in Hasc. apply andb_true_iff in Hasc as [Hij Hrest].
  constructor; [by apply IH|]. constructor. by apply Qle_bool_iff.
Qed.

(** The indices of an argsort are the indices of the array. *)
Lemma is_argsort_in_range similarities p i :
  is_argsort similarities p = true -> i ∈ p -> i < length similarities.
Proof.
  unfold is_argsort. rewrite !andb_true_iff, Nat.eqb_eq, forallb_forall.
  intros [[Hlen Hall] _] Hi.
  assert (Hperm : Permutation (seq 0 (length similarities)) p).
  { apply NoDup_Permutation_bis.
    - apply seq_NoDup.
    - rewrite length_seq. lia.
    - intros j Hj. apply Hall in Hj. apply bool_decide_eq_true in Hj.
      by apply list_elem_of_In. }
  apply list_elem_of_In in Hi. apply (Permutation_in _ (Permutation_sym Hperm)) in Hi.
  apply in_seq in Hi. lia.
Qed.


Lemma kept_indices_sublist argsort similarities k :
  kept_indices argsort similarities k `sublist_of` rev (argsort similarities).
Proof.
  unfold kept_indices, similar_indices.
  etrans; [apply filter_bool_sublist|apply slice_to_sublist].
Qed.

Lemma score_of_recommendation books similarities i :
  score_of (recommendation books similarities i) = key similarities i.
Proof. reflexivity. Qed.


(** *** The insertion sort of [np.argsort] *)

Lemma insert_index_length similarities i l :
  length (insert_index similarities i l) = S (length l).
Proof.
  induction l as [|j rest IH]; simpl; [done|].
  destruct (Qle_bool _ _); simpl; by rewrite ?IH.
Qed.

Lemma insert_index_elem_of similarities i l x :
  x ∈ insert_index similarities i l <-> x = i \/ x ∈ l.
Proof.
  induction l as [|j rest IH]; simpl.
  - rewrite list_elem_of_singleton. split; [by left|]. intros [?|H]; [done|].
    by apply elem_of_nil in H.
  - destruct (Qle_bool _ _); rewrite !elem_of_cons; [done|]. rewrite IH. tauto.
Qed.

Lemma stable_before_le similarities i j :
  stable_before similarities i j -> (key similarities i <= key similarities j)%Q.
Proof. intros [H|[H _]]; [by apply Qlt_le_weak|done]. Qed.

Lemma insert_index_stable similarities i l :
  Forall (fun j => i < j) l ->
  StronglySorted (stable_before similarities) l ->
  StronglySorted (stable_before similarities) (insert_index similarities i l).
Proof.
  induction l as [|j rest IH]; intros Hlt Hs; simpl; [repeat constructor|].
  apply Forall_cons in Hlt as [Hij Hrest].
  apply StronglySorted_inv in Hs as [Hs Hall].
  destruct (Qle_bool (key similarities i) (key similarities j)) eqn:E.
  - apply Qle_bool_iff in E. constructor; [by constructor|].
    constructor; [by right|].
    rewrite Forall_forall in Hall, Hrest |- *. intros x Hx. right. split.
    + eapply Qle_trans; [exact E|]. by apply stable_before_le, Hall.
    + by apply Hrest.
  - constructor; [by apply IH|].
    apply Forall_forall. intros x Hx. apply insert_index_elem_of in Hx as [->|Hx].
    + left. apply Qnot_le_lt. intros Hle. apply Qle_bool_iff in Hle. congruence.
    + rewrite Forall_forall in Hall. by apply Hall.
Qed.

Lemma numpy_argsort_from similarities start n :
  let p := foldr (insert_index similarities) [] (seq start n) in
  length p = n
  /\ (forall x, x ∈ p <-> start <= x < start + n)
  /\ StronglySorted (stable_before similarities) p.
Proof.
  revert start. induction n as [|n IH]; intros start; simpl.
  - split; [done|]. split; [|constructor].
    intros x. split; [by intros ?%elem_of_nil|lia].
  - destruct (IH (S start)) as (Hlen & Hmem & Hs).
    split; [by rewrite insert_index_length, Hlen|]. split.
    + intros x. rewrite insert_index_elem_of, Hmem. lia.
    + apply insert_index_stable; [|done].
      apply Forall_forall. intros x Hx. apply Hmem in Hx. lia.
Qed.

Lemma StronglySorted_ascending similarities p :
  StronglySorted (stable_before similarities) p -> ascending similarities p = true.
Proof.
  induction 1 as [|i l Hs IH Hall]; [done|].
  destruct l as [|j rest]; [done|]. cbn [ascending].
  apply andb_true_iff. split; [|done].
  apply Forall_cons in Hall as [Hij _]. by apply Qle_bool_iff, stable_before_le.
Qed.

(** The insertion sort is an argsort on every array: a rearrangement of the
    indices, ascending by value. *)
Lemma numpy_argsort_is_argsort similarities :
  is_argsort similarities (numpy_argsort similarities) = true.
Proof.
  destruct (numpy_argsort_from similarities 0 (length similarities))
    as (Hlen & Hmem & Hs).
  unfold is_argsort, numpy_argsort. rewrite !andb_true_iff. repeat split.
  - by apply Nat.eqb_eq.
  - apply forallb_forall. intros x Hx. apply bool_decide_eq_true, Hmem.
    apply in_seq in Hx. lia.
  - by apply StronglySorted_ascending.
Qed.

(** With the insertion sort, entries of equal similarity come out in
    descending index order: the reverse of the catalog order. *)
Lemma numpy_argsort_ties similarity books_df query k :
  let similarities := similarities_of similarity books_df query in
  StronglySorted (fun i j => stable_before similarities j i)
                 (kept_indices numpy_argsort similarities k).
Proof.
  intros similarities.
  apply (StronglySorted_sublist _ _ _ (kept_indices_sublist _ _ _)).
  apply (StronglySorted_rev (stable_before similarities)).
  apply (numpy_argsort_from similarities 0 (length similarities)).
Qed.



End BooksSpec.

(** ** Empty input to the two [chat] entry points *)

Module ChatSpec.

Lemma no_completion_phrase_in_blank user_message :
  strip user_message = "" ->
  existsb (fun phrase => contains phrase (strip (lower user_message)))
          Pizza.completion_phrases = false.
Proof. intros H. by rewrite TextFacts.strip_lower, H. Qed.

(** C6, as the source has it.  On an empty or white-space-only input the
    book assistant's [chat] answers with the prompt for more input and does
    nothing else: no lookup, no model call, the history and the catalog as
    they were.  The pizza assistant's [chat] has no such guard: it sends the
    input to the model, once, and when the model answers with a function
    call it dispatches that call on the order. *)
Theorem chat_on_blank_input
    (similarity : string -> nat -> Q) (argsort : list Q -> list nat)
    (str_contains : string -> option string -> bool)
    (generate_text : string -> list Books.result -> option string)
    (random_index : nat -> nat) (b : Books.chatbot)
    (generate_content : Pizza.prompt -> Pizza.model_response) (o : Pizza.order)
    (user_input : string) :
  strip user_input = "" ->
  Books.chat similarity argsort str_contains generate_text random_index user_input b
  = (Books.ReadyToHelp, b, [])
  /\ (Pizza.chat generate_content user_input o).2 = [Pizza.Prompt o user_input]
  /\ (forall name args rest more,
        generate_content (Pizza.Prompt o user_input)
        = Pizza.Candidates ((Pizza.FunctionCall name args :: rest) :: more) ->
        (Pizza.chat generate_content user_input o).1
        = Pizza.catch (Pizza.execute_function name args o)).
Proof.
  intros Hblank. split; [|split].
  - unfold Books.chat. by rewrite Hblank.
  - unfold Pizza.chat. rewrite (no_completion_phrase_in_blank _ Hblank).
    destruct (generate_content _) as [[|parts cs]|e]; try done.
    by destruct (Pizza.dispatch_parts parts o).
  - intros name args rest more Hgen.
    unfold Pizza.chat. rewrite (no_completion_phrase_in_blank _ Hblank), Hgen.
    cbn [Pizza.dispatch_parts]. by destruct (_ && _).
Qed.

(** Three spaces, to a book assistant with an empty catalog and to a pizza
    assistant whose model answers with text. *)
Lemma chat_on_three_spaces :
  let b := Books.Chatbot [] [] in
  let generate_content :=
    fun _ : Pizza.prompt => Pizza.Candidates [[Pizza.TextPart "What size?"]] in
  strip "   " = ""
  /\ Books.chat (fun _ _ => 0%Q) Books.numpy_argsort (fun _ _ => false)
                (fun _ _ => None) (fun _ => 0) "   " b
     = (Books.ReadyToHelp, b, [])
  /\ (Pizza.chat generate_content "   " Pizza.initial_order).2
     = [Pizza.Prompt Pizza.initial_order "   "].
Proof.
  intros b generate_content.
  assert (Hblank : strip "   " = "") by reflexivity.
  split; [exact Hblank|].
  destruct (chat_on_blank_input (fun _ _ => 0%Q) Books.numpy_argsort (fun _ _ => false)
              (fun _ _ => None) (fun _ => 0) b generate_content Pizza.initial_order
              "   " Hblank) as (Hbook & Hpizza & _).
  split; [exact Hbook|exact Hpizza].
Defined.

(** C6 as stated fails for the pizza assistant: on three spaces its [chat]
    calls the model, and when the model answers with [set_pizza_size] the
    order gets a size. *)
Lemma pizza_chat_dispatches_blank_input :
  let generate_content :=
    fun _ : Pizza.prompt =>
      Pizza.Candidates
        [[Pizza.FunctionCall "set_pizza_size" {[ "size" := "large" ]}]] in
  Pizza.chat generate_content "   " Pizza.initial_order
  = (Pizza.SizeSet "large" "14 inch" (1899 # 100),
     Pizza.Order (Some "large") [] 0 false,
     [Pizza.Prompt Pizza.initial_order "   "]).
Proof. vm_compute. reflexivity. Qed.

End ChatSpec.

(** ** More on the string operations *)

Module TextMore.

Lemma lower_char_idemp c : lower_char (lower_char c) = lower_char c.
Proof. destruct c as [[] [] [] [] [] [] [] []]; reflexivity. Qed.

Lemma lower_idemp s : lower (lower s) = lower s.
Proof. induction s as [|c s IH]; simpl; [done|]. by rewrite lower_char_idemp, IH. Qed.

Lemma lower_app s t : lower (s ++ t) = lower s ++ lower t.
Proof.
  induction s as [|c s IH]; [done|].
  change (String (lower_char c) (lower (s ++ t))
          = String (lower_char c) (lower s ++ lower t)).
  by rewrite IH.
Qed.

Lemma lower_length s : String.length (lower s) = String.length s.
Proof. induction s as [|c s IH]; simpl; [done|]. by rewrite IH. Qed.

Lemma lstrip_starts_clean s : starts_clean (lstrip s).
Proof.
  induction s as [|c s IH]; simpl; [done|].
  destruct (is_space c) eqn:E; [done|]. exact E.
Qed.

Lemma lstrip_clean s : starts_clean s -> lstrip s = s.
Proof. destruct s as [|c s]; simpl; [done|]. by intros ->. Qed.

Lemma rstrip_starts_clean s : starts_clean s -> starts_clean (rstrip s).
Proof.
  destruct s as [|c s]; simpl; [done|]. intros Hc.
  destruct (rstrip s); [by rewrite Hc|done].
Qed.

Lemma rstrip_idemp s : rstrip (rstrip s) = rstrip s.
Proof.
  induction s as [|c s IH]; simpl; [done|].
  destruct (rstrip s) as [|d r] eqn:E.
  - destruct (is_space c) eqn:Ec; simpl; [done|]. by rewrite Ec.
  - cbn [rstrip] in IH |- *. by rewrite IH.
Qed.

Lemma strip_idemp s : strip (strip s) = strip s.
Proof.
  unfold strip.
  rewrite (lstrip_clean (rstrip (lstrip s)))
    by apply rstrip_starts_clean, lstrip_starts_clean.
  apply rstrip_idemp.
Qed.

(** What trimming removes is at the two ends. *)
Lemma lstrip_suffix s : exists pre, s = pre ++ lstrip s.
Proof.
  induction s as [|c s [pre IH]]; simpl; [by exists ""|].
  destruct (is_space c); [|by exists ""].
  exists (String c pre). rewrite IH at 1. reflexivity.
Qed.

Lemma rstrip_prefix s : exists post, s = rstrip s ++ post.
Proof.
  induction s as [|c s [post IH]]; simpl; [by exists ""|].
  destruct (rstrip s) as [|d r] eqn:E.
  - destruct (is_space c).
    + exists (String c s). done.
    + exists post. rewrite IH at 1. reflexivity.
  - exists post. rewrite IH at 1. reflexivity.
Qed.

Lemma strip_infix s : exists pre post, s = pre ++ strip s ++ post.
Proof.
  destruct (lstrip_suffix s) as [pre Hpre].
  destruct (rstrip_prefix (lstrip s)) as [post Hpost].
  exists pre, post. unfold strip. by rewrite <- Hpost.
Qed.

End TextMore.

(** ** More on the order machine *)

Module PizzaMore.
Import Pizza.

(** *** The catalog as data *)

(** The catalog writes every name in lower case, without white space at the
    ends, and no name twice. *)
Lemma all_ingredients_catalog : all_ingredients = catalog_names.
Proof. reflexivity. Qed.

Lemma catalog_name_normal n : n ∈ catalog_names -> strip (lower n) = n.
Proof.
  revert n. apply Forall_forall. apply (bool_decide_unpack _). vm_compute. exact I.
Qed.

Lemma catalog_name_lower n : n ∈ catalog_names -> lower n = n.
Proof.
  revert n. apply Forall_forall. apply (bool_decide_unpack _). vm_compute. exact I.
Qed.

(** The scan of [add_ingredient] finds the name itself. *)
Lemma catalog_first_hit n :
  n ∈ all_ingredients -> first_hit n (values available_ingredients) = Some n.
Proof.
  revert n. apply Forall_forall. apply (bool_decide_unpack _). vm_compute. exact I.
Qed.

(** The scan of [create_pizza_with_size] finds it in one category only. *)
Lemma catalog_hits n : n ∈ all_ingredients -> hits_per_category n = [n].
Proof.
  revert n. apply Forall_forall. apply (bool_decide_unpack _). vm_compute. exact I.
Qed.

(** *** [add_ingredient] *)

(** [add_ingredient] answers in one of three ways, decided by the normalized
    name alone: not in the catalog, the order is kept and the name as typed is
    reported unavailable; already on the pizza (compared in lower case), the
    order is kept; otherwise the catalog name is appended at the end.  The
    size plays no part, and the function never falls off its loops. *)
Theorem add_ingredient_cases (raw : string) (o : order) :
  let n := normalize_ingredient raw in
  (n ∉ all_ingredients -> add_ingredient raw o = (Return (NotAvailable raw), o))
  /\ (n ∈ all_ingredients -> n ∈ map lower (ingredients o) ->
      add_ingredient raw o = (Return (AlreadyPresent n), o))
  /\ (n ∈ all_ingredients -> n ∉ map lower (ingredients o) ->
      add_ingredient raw o
      = (Return (IngredientAdded n),
         Order (size o) (ingredients o ++ [n]) (total_price o) (confirmed o))).
Proof.
  intros n. unfold add_ingredient. fold n. split; [|split].
  - intros Hout. by rewrite (bool_decide_eq_false_2 _ Hout).
  - intros Hin Hdup. rewrite (bool_decide_eq_true_2 _ Hin).
    rewrite bool_decide_eq_false_2; [done|]. by intros Hn.
  - intros Hin Hnew. rewrite (bool_decide_eq_true_2 _ Hin).
    rewrite (bool_decide_eq_true_2 _ Hnew). by rewrite (catalog_first_hit n Hin).
Qed.

(** *** [create_pizza_with_size] *)

(** With a size that is no key of the table, [create_pizza_with_size] keeps
    the order, whatever the main ingredient.  With a size of the table it
    stores the size and appends the normalized main ingredient exactly once
    when it is given, non-empty and in the catalog, and nothing otherwise;
    it does not look at what is already on the pizza. *)
Theorem create_pizza_with_size_cases (sz : string) (main : option string) (o : order) :
  let key := strip (lower sz) in
  let added :=
    match main with
    | Some m =>
        if truthy m && bool_decide (normalize_ingredient m ∈ all_ingredients)
        then [normalize_ingredient m] else []
    | None => []
    end in
  (dict_get pizza_sizes key = None ->
   create_pizza_with_size sz main o = (Return (UnknownSize (keys pizza_sizes)), o))
  /\ (forall info, dict_get pizza_sizes key = Some info ->
      create_pizza_with_size sz main o
      = (Return (PizzaCreated key (description info) (price info) added),
         Order (Some key) (ingredients o ++ added) (total_price o) (confirmed o))).
Proof.
  intros key added. unfold create_pizza_with_size. fold key. split.
  - by intros ->.
  - intros info ->. subst added. cbv zeta.
    destruct main as [m|]; [|done]. destruct (truthy m); [|done].
    cbn [andb]. case_bool_decide; [|done]. by rewrite catalog_hits.
Qed.

(** *** [remove_ingredient] *)

(** [remove_ingredient] compares the lower-cased, trimmed argument with each
    ingredient in lower case.  With no such ingredient the order is kept and
    the answer is "not on the pizza"; otherwise the first such ingredient is
    taken out, the others keep their order, and the list is one shorter. *)
Theorem remove_ingredient_cases (raw : string) (o : order) :
  let k := strip (lower raw) in
  (Forall (fun ing => lower ing <> k) (ingredients o) ->
   remove_ingredient raw o = (Return (NotOnPizza k), o))
  /\ (forall i removed,
        ingredients o !! i = Some removed -> lower removed = k ->
        (forall j y, ingredients o !! j = Some y -> j < i -> lower y <> k) ->
        remove_ingredient raw o
        = (Return (IngredientRemoved removed),
           Order (size o) (delete i (ingredients o)) (total_price o) (confirmed o))
        /\ S (length (delete i (ingredients o))) = length (ingredients o))
  /\ ((exists x, x ∈ ingredients o /\ lower x = k)
      \/ Forall (fun ing => lower ing <> k) (ingredients o)).
Proof.
  intros k. split; [|split].
  - intros Hall. unfold remove_ingredient. fold k.
    by rewrite (proj2 (list_find_None (fun ing => lower ing = k) _) Hall).
  - intros i removed Hi Hk Hfirst. split.
    + unfold remove_ingredient. fold k.
      by rewrite (proj2 (list_find_Some (fun ing => lower ing = k) _ i removed)).
    + rewrite length_delete by by eexists.
      apply lookup_lt_Some in Hi. lia.
  - destruct (list_find (fun ing => lower ing = k) (ingredients o)) as [[i x]|] eqn:E.
    + left. apply list_find_Some in E as (Hi & Hx & _). exists x. split; [|done].
      by eapply list_elem_of_lookup_2.
    + right. by apply list_find_None in E.
Qed.

(** *** Adding, then removing *)

Lemma add_ingredient_added raw o orig o' :
  add_ingredient raw o = (Return (IngredientAdded orig), o') ->
  orig ∈ catalog_names /\ (orig ∉ map lower (ingredients o))
  /\ o' = Order (size o) (ingredients o ++ [orig]) (total_price o) (confirmed o).
Proof.
  unfold add_ingredient. case_bool_decide as Hin; [|done].
  case_bool_decide as Hnew; [|done].
  rewrite (catalog_first_hit _ Hin). intros [= <- <-].
  by rewrite <- all_ingredients_catalog.
Qed.

(** Removing, under the name the confirmation gave, the ingredient that
    [add_ingredient] has just added gives back the order as it was before. *)
Theorem add_then_remove (raw : string) (o : order) (orig : string) (o' : order) :
  add_ingredient raw o = (Return (IngredientAdded orig), o') ->
  remove_ingredient orig o' = (Return (IngredientRemoved orig), o).
Proof.
  intros Hadd. apply add_ingredient_added in Hadd as (Hcat & Hnew & ->).
  unfold remove_ingredient. cbn [ingredients].
  rewrite (catalog_name_normal _ Hcat).
  assert (Hfind : list_find (fun ing => lower ing = orig) (ingredients o ++ [orig])
                  = Some (length (ingredients o), orig)).
  { apply list_find_Some. split; [by apply list_lookup_middle|].
    split; [by apply catalog_name_lower|].
    intros j y Hj Hlt Hy. rewrite lookup_app_l in Hj by done.
    apply Hnew. rewrite <- Hy. apply (list_elem_of_fmap_2 lower).
    by eapply list_elem_of_lookup_2. }
  rewrite Hfind. unfold set_ingredients. cbn [size ingredients total_price confirmed].
  rewrite delete_middle, app_nil_r. by destruct o.
Qed.

Lemma add_then_remove_olives :
  let o := Order (Some "large") ["ham"] 0 false in
  let o' := Order (Some "large") ["ham"; "olives"] 0 false in
  add_ingredient " Olive " o = (Return (IngredientAdded "olives"), o')
  /\ remove_ingredient "olives" o' = (Return (IngredientRemoved "olives"), o).
Proof.
  intros o o'.
  assert (Hadd : add_ingredient " Olive " o = (Return (IngredientAdded "olives"), o'))
    by (vm_compute; reflexivity).
  split; [exact Hadd|]. exact (add_then_remove " Olive " o "olives" o' Hadd).
Defined.

(** *** The typo table is for adding only *)

Lemma typo_table_entries :
  Forall (fun entry : string * string =>
            strip (lower entry.1) = entry.1
            /\ entry.2 ∈ catalog_names
            /\ (entry.1 <> entry.2 -> entry.1 ∉ catalog_names))
         typo_table.
Proof. apply (bool_decide_unpack _). vm_compute. exact I. Qed.

(** A misspelling the table corrects is accepted by [add_ingredient] but not
    by [remove_ingredient], which does not consult the table: on an order of
    catalog names, removing under the misspelt name removes nothing, even
    when the corrected name is on the pizza. *)
Theorem remove_ignores_typo_table (k c : string) (o : order) :
  (k, c) ∈ typo_table -> k <> c -> from_catalog o ->
  normalize_ingredient k = c
  /\ c ∈ catalog_names
  /\ remove_ingredient k o = (Return (NotOnPizza k), o).
Proof.
  intros Hentry Hne Hcat.
  pose proof typo_table_entries as Hall. rewrite Forall_forall in Hall.
  destruct (Hall _ Hentry) as (Hk & Hc & Hout). cbn [fst snd] in Hk, Hc, Hout.
  split; [|split; [done|]].
  - unfold normalize_ingredient. rewrite Hk.
    by rewrite (PizzaSpec.typo_map_present _ _ Hentry).
  - unfold remove_ingredient. rewrite Hk.
    rewrite (proj2 (list_find_None (fun ing => lower ing = k) (ingredients o))); [done|].
    unfold from_catalog in Hcat. eapply Forall_impl; [exact Hcat|].
    intros ing Hing Hlow. cbn beta in Hing.
    rewrite (catalog_name_lower _ Hing) in Hlow. subst ing. by apply Hout.
Qed.

Lemma remove_ignores_peperoni :
  let o := Order (Some "small") ["pepperoni"] 0 false in
  (("peperoni", "pepperoni") ∈ typo_table)
  /\ "peperoni" <> "pepperoni"
  /\ from_catalog o
  /\ remove_ingredient "peperoni" o = (Return (NotOnPizza "peperoni"), o).
Proof.
  intros o.
  assert (H1 : ("peperoni", "pepperoni") ∈ typo_table) by repeat constructor.
  assert (H2 : "peperoni" <> "pepperoni") by discriminate.
  assert (H3 : from_catalog o).
  { apply Forall_singleton. apply (bool_decide_unpack _). vm_compute. exact I. }
  split; [exact H1|]. split; [exact H2|]. split; [exact H3|].
  exact (proj2 (proj2 (remove_ignores_typo_table _ _ o H1 H2 H3))).
Defined.

(** *** No lookup of the size table fails *)







(** *** The completion phrases *)

(** When the message, lower-cased and trimmed, contains one of the six
    completion phrases anywhere (inside a longer word too), [chat] does not
    call the model, and its answer is the same whatever the model would say:
    with a size chosen and an ingredient on the pizza the order is confirmed,
    otherwise the order is kept as it is. *)
Theorem chat_completion_shortcut
    (generate_content other_model : prompt -> model_response)
    (user_message : string) (o : order) :
  existsb (fun phrase => contains phrase (strip (lower user_message)))
          ["that all"; "thats all"; "that's all"; "done"; "finish"; "complete"]
  = true ->
  (chat generate_content user_message o).2 = []
  /\ chat other_model user_message o = chat generate_content user_message o
  /\ (size_chosen o = true -> ingredients o <> [] ->
      (chat generate_content user_message o).1.2
      = Order (size o) (ingredients o) (total_price o) true)
  /\ (size_chosen o = false \/ ingredients o = [] ->
      (chat generate_content user_message o).1.2 = o).
Proof.
  intros Hphrase. unfold chat, completion_phrases. rewrite Hphrase.
  split; [by destruct (_ && _)|]. split; [done|]. split.
  - intros Hs Hi. rewrite Hs. rewrite bool_decide_eq_false_2 by done.
    cbn [andb negb fst snd]. rewrite PizzaSpec.catch_order.
    by rewrite (PizzaSpec.confirm_order_sets o Hs Hi).
  - intros Hno.
    assert (Hcond : size_chosen o && negb (bool_decide (ingredients o = [])) = false).
    { destruct Hno as [->|Hi]; [done|].
      rewrite (bool_decide_eq_true_2 _ Hi). apply andb_false_r. }
    rewrite Hcond. cbn [fst snd].
    by rewrite PizzaSpec.catch_order, PizzaSpec.show_current_order_same.
Qed.

Lemma chat_completion_undone :
  let o := Order (Some "medium") ["basil"] 0 false in
  let model := fun _ : prompt => ModelError "quota" in
  existsb (fun phrase => contains phrase (strip (lower " I left it UNDONE ")))
          ["that all"; "thats all"; "that's all"; "done"; "finish"; "complete"]
  = true
  /\ (chat model " I left it UNDONE " o).2 = []
  /\ (chat model " I left it UNDONE " o).1.2 = Order (Some "medium") ["basil"] 0 true.
Proof.
  intros o model.
  assert (Hphrase :
    existsb (fun phrase => contains phrase (strip (lower " I left it UNDONE ")))
            ["that all"; "thats all"; "that's all"; "done"; "finish"; "complete"]
    = true) by reflexivity.
  split; [exact Hphrase|].
  destruct (chat_completion_shortcut model model " I left it UNDONE " o Hphrase)
    as (Hcalls & _ & Hconfirm & _).
  split; [exact Hcalls|]. by apply Hconfirm.
Defined.

(** *** [normalize_ingredient] *)

Lemma typo_table_values_fixed :
  Forall (fun entry : string * string =>
            normalize_ingredient entry.2 = entry.2
            /\ lower entry.2 = entry.2 /\ strip entry.2 = entry.2)
         typo_table.
Proof. apply (bool_decide_unpack _). vm_compute. exact I. Qed.

(** Normalizing is idempotent, and what it returns is in lower case with no
    white space at either end. *)
Theorem normalize_ingredient_idemp (raw : string) :
  let n := normalize_ingredient raw in
  normalize_ingredient n = n /\ lower n = n /\ strip n = n.
Proof.
  intros n.
  assert (Hn : n = default (strip (lower raw)) (typo_map !! strip (lower raw)))
    by reflexivity.
  clearbody n. destruct (typo_map !! strip (lower raw)) as [c|] eqn:E;
    cbn [default] in Hn; subst n.
  - apply elem_of_list_to_map_2 in E.
    pose proof typo_table_values_fixed as Hall. rewrite Forall_forall in Hall.
    exact (Hall _ E).
  - assert (Hlow : lower (strip (lower raw)) = strip (lower raw))
      by (by rewrite <- TextFacts.strip_lower, TextMore.lower_idemp).
    split; [|split; [done|apply TextMore.strip_idemp]].
    unfold normalize_ingredient. by rewrite Hlow, TextMore.strip_idemp, E.
Qed.

(** *** A function call without its argument *)

Lemma no_empty_name :
  dict_get pizza_sizes "" = None /\ ("" ∉ all_ingredients) /\ ("" ∉ catalog_names).
Proof.
  split; [reflexivity|].
  split; apply (bool_decide_unpack _); vm_compute; exact I.
Qed.

(** When the model's call carries neither a size nor an ingredient, the
    missing argument reads as the empty string, which is no size and no
    ingredient: every function but [confirm_order] then leaves an order of
    catalog names as it is. *)
Theorem execute_function_missing_argument
    (function_name : string) (parameters : gmap string string) (o : order) :
  parameters !! "size" = None -> parameters !! "ingredient" = None ->
  from_catalog o -> function_name <> "confirm_order" ->
  (execute_function function_name parameters o).2 = o.
Proof.
  intros Hsize Hing Hcat Hname. destruct no_empty_name as (Hno_size & Hno_ing & Hno_cat).
  unfold execute_function. rewrite Hsize, Hing. cbn [default].
  destruct (String.eqb function_name "create_pizza_with_size").
  { unfold create_pizza_with_size.
    change (strip (lower "")) with "". by rewrite Hno_size. }
  destruct (String.eqb function_name "add_ingredient").
  { unfold add_ingredient. change (normalize_ingredient "") with "".
    by rewrite (bool_decide_eq_false_2 _ Hno_ing). }
  destruct (String.eqb function_name "set_pizza_size").
  { unfold set_pizza_size. change (strip (lower "")) with "". by rewrite Hno_size. }
  destruct (String.eqb function_name "remove_ingredient").
  { unfold remove_ingredient. change (strip (lower "")) with "".
    rewrite (proj2 (list_find_None (fun ing => lower ing = "") (ingredients o)));
      [done|].
    eapply Forall_impl; [exact Hcat|]. intros ing Hin Hlow. cbn beta in Hin.
    rewrite (catalog_name_lower _ Hin) in Hlow. by subst ing. }
  destruct (String.eqb function_name "show_current_order").
  { apply PizzaSpec.show_current_order_same. }
  destruct (String.eqb_spec function_name "confirm_order"); [done|].
  by destruct (String.eqb function_name "show_available_ingredients").
Qed.

Lemma execute_function_missing_ingredient :
  let o := Order (Some "large") ["feta"] 0 false in
  (∅ : gmap string string) !! "size" = None
  /\ (∅ : gmap string string) !! "ingredient" = None
  /\ from_catalog o
  /\ "remove_ingredient" <> "confirm_order"
  /\ (execute_function "remove_ingredient" ∅ o).2 = o.
Proof.
  intros o.
  assert (H3 : from_catalog o).
  { apply Forall_singleton. apply (bool_decide_unpack _). vm_compute. exact I. }
  assert (H4 : "remove_ingredient" <> "confirm_order") by discriminate.
  split; [reflexivity|]. split; [reflexivity|]. split; [exact H3|]. split; [exact H4|].
  exact (execute_function_missing_argument "remove_ingredient" ∅ o
           eq_refl eq_refl H3 H4).
Defined.

End PizzaMore.

(** ** More on the retrieval pipeline *)

Module BooksMore.
Import Books.

(** *** The ranker picks the highest scores *)

Lemma is_argsort_complete similarities p j :
  is_argsort similarities p = true -> j < length similarities -> j ∈ p.
Proof.
  unfold is_argsort. rewrite !andb_true_iff, forallb_forall.
  intros [[_ Hall] _] Hj. eapply bool_decide_eq_true_1, Hall, in_seq. lia.
Qed.

Lemma is_argsort_length similarities p :
  is_argsort similarities p = true -> length p = length similarities.
Proof.
  unfold is_argsort. rewrite !andb_true_iff, Nat.eqb_eq. by intros [[? _] _].
Qed.

Lemma is_argsort_descending similarities p :
  is_argsort similarities p = true ->
  StronglySorted (fun i j => (key similarities j <= key similarities i)%Q) (rev p).
Proof.
  unfold is_argsort. rewrite !andb_true_iff. intros [_ Hasc].
  apply BooksSpec.ascending_StronglySorted in Hasc.
  exact (BooksSpec.StronglySorted_rev _ _ Hasc).
Qed.

Lemma elem_of_rev_iff {A} (l : list A) x : x ∈ rev l <-> x ∈ l.
Proof. rewrite !list_elem_of_In. symmetry. apply in_rev. Qed.

(** For a count [k >= 0] and an argsort that returns the indices in
    ascending order of similarity: [min k n] indices are selected out of
    the [n] of the catalog; no index left out scores more than a selected
    one; a record is returned exactly when its index is selected and its
    similarity is above the threshold, so with [k >= n] the records returned
    are exactly those above the threshold. *)
Theorem similar_indices_highest
    (argsort : list Q -> list nat) (similarities : list Q) (k : Z) :
  (0 <= k)%Z ->
  is_argsort similarities (argsort similarities) = true ->
  let selected := similar_indices argsort similarities k in
  let kept := kept_indices argsort similarities k in
  length selected = Z.to_nat k `min` length similarities
  /\ (forall i j, i ∈ selected -> j < length similarities -> j ∉ selected ->
                  (key similarities j <= key similarities i)%Q)
  /\ (forall i, i ∈ kept <-> i ∈ selected /\ (threshold < key similarities i)%Q)
  /\ (length similarities <= Z.to_nat k ->
      forall i, i ∈ kept <->
                i < length similarities /\ (threshold < key similarities i)%Q).
Proof.
  intros Hk Hsort selected kept.
  assert (Hsel : selected = take (Z.to_nat k) (rev (argsort similarities))).
  { subst selected. unfold similar_indices, slice_to.
    by rewrite (proj2 (Z.leb_le 0 k) Hk). }
  assert (Hkept : forall i, i ∈ kept <->
                            i ∈ selected /\ (threshold < key similarities i)%Q).
  { intros i. subst kept. unfold kept_indices. fold selected.
    by rewrite BooksSpec.elem_of_filter_bool, BooksSpec.above_threshold_spec. }
  split; [|split; [|split]].
  - rewrite Hsel, length_take, length_rev. by rewrite (is_argsort_length _ _ Hsort).
  - intros i j Hi Hj Hout.
    pose proof (is_argsort_descending _ _ Hsort) as Hdesc.
    rewrite <- (take_drop (Z.to_nat k) (rev (argsort similarities))) in Hdesc.
    rewrite <- Hsel in Hdesc.
    apply (StronglySorted_app_1_elem_of _ _ _ i j Hdesc Hi).
    assert (Hin : j ∈ rev (argsort similarities)).
    { apply elem_of_rev_iff. exact (is_argsort_complete similarities _ j Hsort Hj). }
    rewrite <- (take_drop (Z.to_nat k) (rev (argsort similarities))) in Hin.
    rewrite <- Hsel in Hin. apply elem_of_app in Hin as [Hin|Hin]; [by destruct Hout|done].
  - exact Hkept.
  - intros Hall i. rewrite Hkept, Hsel.
    assert (Hlen : length (rev (argsort similarities)) <= Z.to_nat k).
    { rewrite length_rev, (is_argsort_length similarities _ Hsort). exact Hall. }
    rewrite (take_ge _ _ Hlen).
    rewrite elem_of_rev_iff. split; intros [Hi ?]; (split; [|done]).
    + by eapply BooksSpec.is_argsort_in_range.
    + exact (is_argsort_complete similarities _ i Hsort Hi).
Qed.

Lemma similar_indices_highest_four :
  let similarities := [1 # 2; 1 # 3; 9 # 10; 1 # 400] in
  (0 <= 2)%Z
  /\ is_argsort similarities (numpy_argsort similarities) = true
  /\ length (similar_indices numpy_argsort similarities 2) = 2
  /\ (forall i j, i ∈ similar_indices numpy_argsort similarities 2 ->
                  j < length similarities ->
                  j ∉ similar_indices numpy_argsort similarities 2 ->
                  (key similarities j <= key similarities i)%Q).
Proof.
  intros similarities.
  assert (Hk : (0 <= 2)%Z) by lia.
  assert (Hsort : is_argsort similarities (numpy_argsort similarities) = true)
    by reflexivity.
  split; [exact Hk|]. split; [exact Hsort|].
  destruct (similar_indices_highest numpy_argsort similarities 2 Hk Hsort)
    as (Hlen & Htop & _).
  split; [exact Hlen|exact Htop].
Defined.

(** *** Equal scores under a stable argsort *)

Lemma StronglySorted_lookup_lt {A} (R : relation A) l a b x y :
  StronglySorted R l -> l !! a = Some x -> l !! b = Some y -> a < b -> R x y.
Proof.
  intros Hs. revert a b. induction Hs as [|z l Hs IH Hall]; intros a b Ha Hb Hlt.
  - by rewrite lookup_nil in Ha.
  - destruct b as [|b]; [lia|]. destruct a as [|a].
    + injection Ha as ->. rewrite Forall_forall in Hall. apply Hall.
      by eapply list_elem_of_lookup_2.
    + apply (IH a b); [done|done|lia].
Qed.

(** When [argsort] is stable (ascending by value, equal values in index
    order), two returned records of equal similarity come in descending
    index order: the one later in the catalog first. *)
Theorem stable_argsort_reverses_ties
    (argsort : list Q -> list nat) (similarities : list Q) (k : Z)
    (a b i j : nat) :
  StronglySorted (stable_before similarities) (argsort similarities) ->
  kept_indices argsort similarities k !! a = Some i ->
  kept_indices argsort similarities k !! b = Some j ->
  a < b -> (key similarities i == key similarities j)%Q ->
  j < i.
Proof.
  intros Hstable Ha Hb Hlt Heq.
  assert (Hs : StronglySorted (fun i j => stable_before similarities j i)
                              (kept_indices argsort similarities k)).
  { apply (BooksSpec.StronglySorted_sublist _ _ _
             (BooksSpec.kept_indices_sublist _ _ _)).
    exact (BooksSpec.StronglySorted_rev (stable_before similarities) _ Hstable). }
  destruct (StronglySorted_lookup_lt _ _ a b i j Hs Ha Hb Hlt) as [Hless|[_ Hidx]];
    [|done].
  rewrite Heq in Hless. by apply Qlt_irrefl in Hless.
Qed.

Lemma stable_argsort_reverses_ties_pair :
  let similarities := [1 # 2; 1 # 2] in
  StronglySorted (stable_before similarities) (numpy_argsort similarities)
  /\ kept_indices numpy_argsort similarities 5 !! 0 = Some 1
  /\ kept_indices numpy_argsort similarities 5 !! 1 = Some 0
  /\ 0 < 1
  /\ (key similarities 1 == key similarities 0)%Q
  /\ 0 < 1.
Proof.
  intros similarities.
  assert (Hs : StronglySorted (stable_before similarities) (numpy_argsort similarities))
    by apply (BooksSpec.numpy_argsort_from similarities 0 2).
  assert (Ha : kept_indices numpy_argsort similarities 5 !! 0 = Some 1) by reflexivity.
  assert (Hb : kept_indices numpy_argsort similarities 5 !! 1 = Some 0) by reflexivity.
  assert (Hlt : 0 < 1) by lia.
  assert (Heq : (key similarities 1 == key similarities 0)%Q) by reflexivity.
  split; [exact Hs|]. split; [exact Ha|]. split; [exact Hb|]. split; [exact Hlt|].
  split; [exact Heq|].
  exact (stable_argsort_reverses_ties numpy_argsort similarities 5 0 1 1 0
           Hs Ha Hb Hlt Heq).
Defined.

(** *** The substring matchers *)



(** *** The loader leaves the other cells alone *)

Lemma clean_row_other_cells (r : gmap string string) col :
  col <> "title" -> col <> "author" -> col <> "combined_text" ->
  clean_row r !! col = r !! col.
Proof.
  intros Ht Ha Hc. unfold clean_row, assign.
  rewrite !lookup_partial_alter. by repeat case_decide.
Qed.

(** A successful load returns no more rows than it read, in the order read;
    it keeps every column and has the column [combined_text]; and in every
    returned row each cell outside title, author and combined text is the
    cell of the row read. *)
Theorem load_books_data_frame (df df' : dataframe) :
  load_books_data (Frame df) = Loaded df' ->
  length (rows df') <= length (rows df)
  /\ (forall col, col ∈ columns df' <-> col ∈ columns df \/ col = "combined_text")
  /\ (exists kept, kept `sublist_of` rows df /\ rows df' = map clean_row kept)
  /\ Forall (fun r' => exists r, r ∈ rows df
               /\ forall col, col <> "title" -> col <> "author" ->
                              col <> "combined_text" -> r' !! col = r !! col)
            (rows df').
Proof.
  unfold load_books_data.
  destruct (List.filter _ required_columns); [|done]. intros [= <-]. cbn [rows columns].
  assert (Hsub : dropna required_columns (rows df) `sublist_of` rows df)
    by apply BooksSpec.filter_bool_sublist.
  split; [|split; [|split]].
  - rewrite length_map. by apply sublist_length.
  - intros col. unfold add_column. case_bool_decide as Hin.
    + split; [by left|]. by intros [?| ->].
    + rewrite elem_of_app, list_elem_of_singleton. tauto.
  - by exists (dropna required_columns (rows df)).
  - apply Forall_fmap, Forall_forall. intros r Hr. exists r.
    split; [by eapply elem_of_sublist|]. apply clean_row_other_cells.
Qed.

Lemma load_books_data_frame_year :
  let r : gmap string string :=
    {[ "title" := " Emma "; "author" := "Jane Austen"; "description" := "A novel.";
       "year" := "1815" ]} in
  let blank : gmap string string := {[ "title" := "Untitled"; "year" := "1900" ]} in
  let df := DataFrame ["title"; "author"; "description"; "year"] [blank; r] in
  let df' := DataFrame ["title"; "author"; "description"; "year"; "combined_text"]
                       [clean_row r] in
  load_books_data (Frame df) = Loaded df'
  /\ length (rows df') <= length (rows df)
  /\ clean_row r !! "year" = Some "1815".
Proof.
  intros r blank df df'.
  assert (Hload : load_books_data (Frame df) = Loaded df') by (vm_compute; reflexivity).
  split; [exact Hload|].
  destruct (load_books_data_frame df df' Hload) as (Hlen & _ & _ & Hcells).
  split; [exact Hlen|]. reflexivity.
Defined.

(** *** What the router extracts *)

Lemma append_assoc (a b c : string) : (a ++ b) ++ c = a ++ b ++ c.
Proof.
  induction a as [|x a IH]; [done|].
  change (String x ((a ++ b) ++ c) = String x (a ++ b ++ c)). by rewrite IH.
Qed.

Lemma append_nil_r (a : string) : a ++ "" = a.
Proof.
  induction a as [|x a IH]; [done|]. change (String x (a ++ "") = String x a).
  by rewrite IH.
Qed.

Lemma occurs_in_refl s : occurs_in s s.
Proof. exists "", "". by rewrite append_nil_r. Qed.

Lemma occurs_in_trans a b c : occurs_in a b -> occurs_in b c -> occurs_in a c.
Proof.
  intros (p1 & q1 & ->) (p2 & q2 & ->). exists (p2 ++ p1), (q1 ++ q2).
  by rewrite !append_assoc.
Qed.

Lemma occurs_in_tail a c s : occurs_in a s -> occurs_in a (String c s).
Proof. intros (pre & post & ->). by exists (String c pre), post. Qed.

Lemma occurs_in_strip s : occurs_in (strip s) s.
Proof. destruct (TextMore.strip_infix s) as (pre & post & H). by exists pre, post. Qed.

Lemma append_inj_length (a a' b b' : string) :
  a ++ b = a' ++ b' -> String.length a = String.length a' -> a = a' /\ b = b'.
Proof.
  revert a'. induction a as [|x a IH]; intros [|x' a'] Heq Hlen; try done.
  injection Hlen as Hlen.
  change (String x (a ++ b) = String x' (a' ++ b')) in Heq.
  injection Heq as -> Heq. destruct (IH a' Heq Hlen) as [-> ->]. done.
Qed.

(** A run of characters of a lower-case string is in lower case. *)
Lemma occurs_in_lower part whole :
  occurs_in part whole -> lower whole = whole -> lower part = part.
Proof.
  intros (pre & post & ->) Hlow. rewrite !TextMore.lower_app in Hlow.
  apply append_inj_length in Hlow as [_ Hlow]; [|apply TextMore.lower_length].
  by apply append_inj_length in Hlow as [? _]; [|apply TextMore.lower_length].
Qed.

(** What [(.+)] captures is the start of the text it is matched on, and the
    rest of the pattern matches what follows. *)
Lemma match_here_group p s groups :
  match_here (AnyGroup :: p) s = Some groups ->
  exists g rest more, groups = g :: more /\ s = g ++ rest
                      /\ match_here p rest = Some more.
Proof.
  revert groups. induction s as [|d s IH]; intros groups; [done|].
  cbn [match_here]. destruct (Ascii.eqb d newline); [done|].
  match goal with
  | |- context [match ?x with Some _ => _ | None => match match_here p s with _ => _ end end] =>
      destruct x as [[g more]|] eqn:E
  end.
  - intros [= <-].
    destruct (IH (g :: more)) as (g' & rest & more' & [= <- <-] & -> & Hrest).
    { cbn [match_here]. by rewrite E. }
    by exists (String d g), rest, more.
  - destruct (match_here p s) as [more|] eqn:Hp; [|done]. intros [= <-].
    by exists (String d ""), s, more.
Qed.

Lemma match_here_occurs p s groups :
  match_here p s = Some groups -> Forall (fun g => occurs_in g s) groups.
Proof.
  revert s groups. induction p as [|[c|c|] p IH]; intros s groups.
  - by intros [= <-].
  - cbn [match_here]. destruct s as [|d s]; [done|].
    destruct (Ascii.eqb c d); [|done]. intros H%IH.
    eapply Forall_impl; [exact H|]. intros g. apply occurs_in_tail.
  - cbn [match_here]. cbv zeta.
    destruct s as [|d s]; [by apply IH|].
    destruct (Ascii.eqb c d); [|by apply IH].
    destruct (match_here p s) as [taken|] eqn:E; [|by apply IH].
    intros [= <-]. apply IH in E.
    eapply Forall_impl; [exact E|]. intros g. apply occurs_in_tail.
  - intros (g & rest & more & -> & -> & Hrest)%match_here_group.
    constructor; [by exists "", rest|].
    apply IH in Hrest. eapply Forall_impl; [exact Hrest|].
    intros g' (pre & post & ->). exists (g ++ pre), post. by rewrite append_assoc.
Qed.

Lemma search_tokens_occurs p s groups :
  search_tokens p s = Some groups -> Forall (fun g => occurs_in g s) groups.
Proof.
  induction s as [|d s IH]; cbn [search_tokens].
  - destruct (match_here p "") eqn:E; [|done]. intros [= <-].
    exact (match_here_occurs _ _ _ E).
  - destruct (match_here p (String d s)) eqn:E.
    + intros [= <-]. exact (match_here_occurs _ _ _ E).
    + intros H%IH. eapply Forall_impl; [exact H|]. intros g. apply occurs_in_tail.
Qed.

Lemma first_match_occurs patterns s groups :
  first_match patterns s = Some groups -> occurs_in (group1 groups) s.
Proof.
  induction patterns as [|pattern rest IH]; cbn [first_match]; [done|].
  destruct (re_search pattern s) as [m|] eqn:E; [|exact IH].
  intros [= <-]. apply search_tokens_occurs in E.
  destruct m as [|g m]; [by exists "", s|]. by apply Forall_cons in E as [? _].
Qed.

(** The query of an author or title search is taken from the input: it is a
    run of characters of the lower-cased input, itself in lower case, with
    no white space at either end. *)
Theorem detect_intent_query_from_input (user_input : string) :
  intent (detect_intent user_input) <> similarity_search ->
  let q := query (detect_intent user_input) in
  occurs_in q (lower user_input) /\ lower q = q /\ strip q = q.
Proof.
  unfold detect_intent.
  assert (Hgroup : forall patterns m,
            first_match patterns (lower user_input) = Some m ->
            let q := strip (group1 m) in
            occurs_in q (lower user_input) /\ lower q = q /\ strip q = q).
  { intros patterns m Hm q. apply first_match_occurs in Hm.
    assert (Hq : occurs_in q (lower user_input))
      by (eapply occurs_in_trans; [apply occurs_in_strip|exact Hm]).
    split; [exact Hq|]. split; [|apply TextMore.strip_idemp].
    apply (occurs_in_lower _ _ Hq), TextMore.lower_idemp. }
  destruct (first_match author_patterns (lower user_input)) as [m|] eqn:Ea.
  { intros _. by apply (Hgroup author_patterns). }
  destruct (first_match title_patterns (lower user_input)) as [m|] eqn:Et.
  { intros _. by apply (Hgroup title_patterns). }
  by intros [].
Qed.

Lemma detect_intent_query_written_by :
  intent (detect_intent "Something WRITTEN BY  Ursula Le Guin ") <> similarity_search
  /\ query (detect_intent "Something WRITTEN BY  Ursula Le Guin ") = "ursula le guin"
  /\ occurs_in "ursula le guin" (lower "Something WRITTEN BY  Ursula Le Guin ").
Proof.
  assert (Hkind : intent (detect_intent "Something WRITTEN BY  Ursula Le Guin ")
                  <> similarity_search) by (vm_compute; discriminate).
  split; [exact Hkind|]. split; [vm_compute; reflexivity|].
  exact (proj1 (detect_intent_query_from_input
                  "Something WRITTEN BY  Ursula Le Guin " Hkind)).
Defined.

(** *** A turn of the book assistant *)




End BooksMore.
